(** * A retrieval-augmented question-answering app: the core behind the pages

    The development embeds the functions of [Finalapp.py] and [app.py] that
    carry the behaviour of the application: the relevance gate and the prompt
    of [get_answer_with_source] and [get_answer], the identifiers written by
    [add_text_to_chromadb] and [setup_documents], [reset_collection],
    [add_to_search_history], and the three button handlers of the tabbed page
    (process, search, delete).

    Conventions.
    - A Python [str] is a [string]; a character stands for a code point
      below 256, and [py_isspace] is [str.isspace] on those code points.
    - A Python [float] is a binary64 [float] of the kernel.
    - Calls that only draw on the page ([st.markdown], [st.metric],
      progress bars) and [print] are left out; the calls a property speaks
      about ([st.error], [st.warning], [st.success]) are events of type [Ui].
    - The vector index (chromadb), the text splitter (langchain) and the two
      models are libraries outside the repository: the index and the splitter
      are modelled from the specification, the models are section variables. *)

From Stdlib Require Import Ascii String Floats.
From stdpp Require Import base option list gmap strings pretty.

Set Default Proof Using "Type".

(** ** Python values *)

Module Py.

(** [str.isspace] on code points below 256. *)
Definition py_isspace (c : ascii) : bool :=
  match c with
  | "009" | "010" | "011" | "012" | "013"
  | "028" | "029" | "030" | "031" | " "
  | "133" | "160" => true
  | _ => false
  end%char.

Fixpoint lstrip (s : string) : string :=
  match s with
  | String c s' => if py_isspace c then lstrip s' else s
  | EmptyString => EmptyString
  end.

Fixpoint rstrip (s : string) : string :=
  match s with
  | String c s' =>
      match rstrip s' with
      | EmptyString => if py_isspace c then EmptyString else String c EmptyString
      | r => String c r
      end
  | EmptyString => EmptyString
  end.

(** [s.strip()] *)
Definition strip (s : string) : string := lstrip (rstrip s).

(** [len(s)] *)
Definition len (s : string) : nat := String.length s.

(** Truth value of a string: [not s] is [negb (truthy s)]. *)
Definition truthy (s : string) : bool :=
  match s with EmptyString => false | _ => true end.

(** [sep.join(l)] *)
Fixpoint join (sep : string) (l : list string) : string :=
  match l with
  | [] => ""
  | [x] => x
  | x :: rest => x +:+ sep +:+ join sep rest
  end.

(** [str(n)] for a non-negative integer. *)
Definition str_of_nat (n : nat) : string := pretty n.

(** [s.split(sep)[0]]: the part of [s] before the first occurrence of a
    non-empty [sep], all of [s] when there is none. *)
Fixpoint split_head (sep s : string) : string :=
  if String.prefix sep s then ""
  else match s with
       | String c s' => String c (split_head sep s')
       | EmptyString => ""
       end.

(** Values that the metadata of a record holds. *)
Inductive value : Type :=
| VStr (s : string)
| VInt (n : nat).

(** [str(v)], which is how an f-string renders [v]. *)
Definition str (v : value) : string :=
  match v with
  | VStr s => s
  | VInt n => str_of_nat n
  end.

(** [min(l)] on floats: the first element that no later one is below.
    [None] stands for the [ValueError] on an empty list. *)
Definition min (l : list float) : option float :=
  match l with
  | [] => None
  | x :: rest => Some (fold_left (fun best y => if PrimFloat.ltb y best then y else best) rest x)
  end.

(** Exceptions, with the text [str(e)] gives. *)
Inductive exc_kind : Type :=
| ValueError | IndexError | AttributeError
| NotFoundError | AlreadyExistsError | DuplicateIDError
| EmbeddingError | GenerationError.

Record exc : Type := Exc { kind : exc_kind; msg : string }.

End Py.

#[global] Instance exc_kind_eq_dec : EqDecision Py.exc_kind.
Proof. solve_decision. Defined.
#[global] Instance exc_eq_dec : EqDecision Py.exc.
Proof. solve_decision. Defined.
#[global] Instance value_eq_dec : EqDecision Py.value.
Proof. solve_decision. Defined.

(** ** Results of calls that may raise, and the state the app runs in *)

Inductive result (A : Type) : Type :=
| Ok (a : A)
| Raise (e : Py.exc).
Arguments Ok {A} a.
Arguments Raise {A} e.

#[global] Instance result_ret : MRet result := fun A a => Ok a.
#[global] Instance result_bind : MBind result := fun A B f r =>
  match r with
  | Ok a => f a
  | Raise e => Raise e
  end.

(** [[f(x) for x in l]] when [f] may raise: the first exception ends it. *)
Fixpoint mapR {A B : Type} (f : A -> result B) (l : list A) : result (list B) :=
  match l with
  | [] => Ok []
  | x :: rest => y ← f x; ys ← mapR f rest; Ok (y :: ys)
  end.

(** [enumerate(l)] *)
Definition enumerate {A : Type} (l : list A) : list (nat * A) :=
  zip (seq 0 (length l)) l.

(** A metadata dict of the index, keyed by field name. *)
Abbreviation metadata := (gmap string Py.value).

(** One record of a collection: what a call of [collection.add] stores. *)
Record embedding_record : Type := EmbeddingRecord {
  er_id : string;
  er_embedding : list float;
  er_document : string;
  er_metadata : option metadata;
}.

(** What [collection.query(query_texts=[q], n_results=k)] returns, each field
    being the inner list of the single query, e.g. [results["documents"][0]].
    [qr_metadatas] is [None] when [results["metadatas"]] is falsy, and an
    entry is [None] for a record stored with no metadata. *)
Record query_result : Type := QueryResult {
  qr_documents : list string;
  qr_distances : list float;
  qr_ids : list string;
  qr_metadatas : option (list (option metadata));
}.

(** A collection object: the name it was created under. An object obtained
    before a reset therefore reaches the collection created by the reset. *)
Abbreviation handle := string (only parsing).

(** One entry of [st.session_state.search_history]. *)
Record history_entry : Type := HistoryEntry {
  h_question : string;
  h_answer : string;
  h_source : Py.value;
  h_timestamp : string;
}.

(** [st.session_state], with the keys the modelled code reads or writes.
    [document_contents] and [search_history] are [None] while the key is
    absent; [show_preview] holds the keys [show_preview_{i}]. *)
Record session : Type := Session {
  collection : option handle;
  uploaded_files_processed : list string;
  document_contents : option (gmap string string);
  search_history : option (list history_entry);
  show_preview : gmap nat bool;
}.

(** An entry of [processing_errors] in the process handler:
    [EmptyOrCorrupted name] is the warning
    [{name}: Content appears empty or corrupted], [Failed name msg] is the
    error [{name}: {msg}] of the [except] branch. *)
Inductive processing_error : Type :=
| EmptyOrCorrupted (name : string)
| Failed (name : string) (msg : string).

(** What the handlers show on the page. *)
Inductive Ui : Type :=
| FileTooLarge (name : string)            (* st.error: File too large *)
| ProcessedOk (n : nat)                   (* st.success: Successfully processed n documents *)
| ProcessingWarning (e : processing_error) (* st.warning(error) in the warnings expander *)
| NothingProcessed                        (* st.error: No documents were successfully processed *)
| UploadFirst                             (* st.warning: Please upload files first *)
| ShowAnswer (answer : string) (source : Py.value) (* the answer and Primary Source blocks *)
| ErrorGeneratingAnswer (msg : string)    (* st.error: Error generating answer: msg *)
| EnterQuestion                           (* st.warning: Please enter a question to search *)
| NoDocumentsYet                          (* the empty state of the question tab *)
| Removed (name : string)                 (* st.success: Removed name *)
| Rerun.                                  (* st.rerun() *)

(** The process the app runs in. [chroma] is the in-memory index shared by
    every [chromadb.Client()]; [fn_collections] is the function attribute
    [add_text_to_chromadb.collections], [None] until the first call sets the
    attributes; [prompts] lists the prompts handed to the generation model,
    oldest first. *)
Record world : Type := World {
  chroma : gmap string (list embedding_record);
  fn_collections : option (gmap string handle);
  session_state : session;
  prompts : list string;
  page : list Ui;
}.

Definition set_chroma (f : gmap string (list embedding_record) -> gmap string (list embedding_record)) (w : world) : world :=
  World (f (chroma w)) (fn_collections w) (session_state w) (prompts w) (page w).
Definition set_fn_collections (c : option (gmap string handle)) (w : world) : world :=
  World (chroma w) c (session_state w) (prompts w) (page w).
Definition set_session (f : session -> session) (w : world) : world :=
  World (chroma w) (fn_collections w) (f (session_state w)) (prompts w) (page w).
Definition log_prompt (p : string) (w : world) : world :=
  World (chroma w) (fn_collections w) (session_state w) (prompts w ++ [p]) (page w).
Definition show (u : Ui) (w : world) : world :=
  World (chroma w) (fn_collections w) (session_state w) (prompts w) (page w ++ [u]).

(** Computations over the world that may raise. State changes made before
    an exception stay, as in Python. *)
Definition M (A : Type) : Type := world -> result A * world.

#[global] Instance M_ret : MRet M := fun A a w => (Ok a, w).
#[global] Instance M_bind : MBind M := fun A B f c w =>
  match c w with
  | (Ok a, w') => f a w'
  | (Raise e, w') => (Raise e, w')
  end.

Definition get_world : M world := fun w => (Ok w, w).
Definition modify (f : world -> world) : M unit := fun w => (Ok tt, f w).
Definition raise {A : Type} (k : Py.exc_kind) (m : string) : M A :=
  fun w => (Raise (Py.Exc k m), w).
Definition lift {A : Type} (r : result A) : M A := fun w => (r, w).

(** [try: c except Exception as e: h(e)] *)
Definition try_except {A : Type} (c : M A) (h : Py.exc -> M A) : M A := fun w =>
  match c w with
  | (Ok a, w') => (Ok a, w')
  | (Raise e, w') => h e w'
  end.

(** [for x in l: body(x)] *)
Fixpoint for_each {A : Type} (l : list A) (body : A -> M unit) : M unit :=
  match l with
  | [] => mret tt
  | x :: rest => _ ← body x; for_each rest body
  end.

(** ** The text splitter *)

(** The configuration [add_text_to_chromadb] builds its splitter with. *)
Record splitter : Type := RecursiveCharacterTextSplitter {
  chunk_size : nat;
  chunk_overlap : nat;
  separators : list string;
}.

(** Modelled from the spec: splitting on one separator of the priority list
    (section 4.1). The pieces of [text] are cut after each occurrence of
    [sep], the separator staying at the end of its piece; the empty
    separator is the character boundary and cuts after every character.
    [cur_rev] is the piece being read, backwards. *)
Fixpoint split_on_go (sep_rev cur_rev text : string) : list string :=
  match text with
  | EmptyString => if Py.truthy cur_rev then [String.rev cur_rev] else []
  | String c rest =>
      let cur' := String c cur_rev in
      if String.prefix sep_rev cur'
      then String.rev cur' :: split_on_go sep_rev "" rest
      else split_on_go sep_rev cur' rest
  end.

Definition split_on (sep text : string) : list string :=
  split_on_go (String.rev sep) "" text.

(** Modelled from the spec: the recursive splitting of section 4.1, which
    the langchain splitter carries out and the repository only configures.
    A text within [size] is one piece (none when empty); a longer one is
    split on the highest-priority separator and each part is split further
    with the separators that remain; with no separator left the text is an
    atomic segment and stays whole. *)
Fixpoint pieces (size : nat) (seps : list string) (text : string) {struct seps} : list string :=
  if Py.len text <=? size then (if Py.truthy text then [text] else [])
  else match seps with
       | [] => [text]
       | sep :: rest => flat_map (pieces size rest) (split_on sep text)
       end.

(** Characters held by a run of pieces. *)
Definition total (cur : list string) : nat := sum_list (Py.len <$> cur).

(** Modelled from the spec: the overlap of section 4.1. The tail of the
    chunk just emitted opens the next one: pieces are dropped from its front
    until what stays is within [overlap] and leaves room for a piece of [n]
    characters. *)
Fixpoint shrink (size overlap : nat) (cur : list string) (n : nat) : list string :=
  match cur with
  | [] => []
  | _ :: rest =>
      if (overlap <? total cur) || (size <? total cur + n)
      then shrink size overlap rest n
      else cur
  end.

(** Modelled from the spec: consecutive pieces are packed into chunks of at
    most [size] characters, a chunk opening with the last pieces of the one
    before it, [overlap] characters at most (section 4.1: consecutive chunks
    overlap by chunk_overlap characters). [cur] is the chunk being filled. *)
Fixpoint merge (size overlap : nat) (cur ps : list string) : list string :=
  match ps with
  | [] => match cur with [] => [] | _ => [Py.join "" cur] end
  | d :: ps' =>
      if size <? total cur + Py.len d
      then match cur with [] => [] | _ => [Py.join "" cur] end
           ++ merge size overlap (shrink size overlap cur (Py.len d) ++ [d]) ps'
      else merge size overlap (cur ++ [d]) ps'
  end.

(** Modelled from the spec: [splitter.split_text(text)]. *)
Definition split_text (s : splitter) (text : string) : list string :=
  merge (chunk_size s) (chunk_overlap s) []
        (pieces (chunk_size s) (separators s) text).

Definition nl : string := String "010"%char "".
Definition dquote : string := String "034"%char "".

(** The splitter of [add_text_to_chromadb]. *)
Definition the_splitter : splitter :=
  RecursiveCharacterTextSplitter 700 100 [nl +:+ nl; nl; " "; ""].

(** A file of [st.file_uploader]: its name and [len(file.getvalue())]. *)
Record uploaded_file : Type := UploadedFile {
  file_name : string;
  file_size : N;
}.

(** The identifier of chunk [i] of [filename]: [f"{filename}_chunk_{i}"]. *)
Definition chunk_id (filename : string) (i : nat) : string :=
  filename +:+ "_chunk_" +:+ Py.str_of_nat i.

(** The metadata dict of chunk [i]. *)
Definition chunk_metadata (filename : string) (i : nat) (chunk : string) : metadata :=
  <["filename" := Py.VStr filename]>
    (<["chunk_index" := Py.VInt i]>
       (<["chunk_size" := Py.VInt (Py.len chunk)]> ∅)).

(** The record [add_text_to_chromadb] stores for chunk [i] of a file. *)
Definition chunk_record (filename : string) (i : nat) (chunk : string) (e : list float) : embedding_record :=
  EmbeddingRecord (chunk_id filename i) e chunk (Some (chunk_metadata filename i chunk)).

(** The world of a process that has just started. *)
Definition initial_world : world :=
  World ∅ None (Session None [] (Some ∅) (Some []) ∅) [] [].


(** ** A sample run

    Collaborators and worlds on which the properties below are run: a
    question that starts with [Where] is at distance 0.5 of every record,
    any other question at distance 2; the generation model answers with a
    fixed text in whitespace, or fails. *)

Definition sample_encode (chunk : string) : result (list float) := Ok [0.5%float].

Definition sample_embed (q : string) : result (list float) :=
  Ok [if String.prefix "Where" q then 0.5%float else 2%float].

Definition sample_distance (qv e : list float) : float :=
  match qv with
  | [x] => x
  | _ => 2%float
  end.

Definition sample_model (prompt : string) : result string :=
  Ok ("  Paris " +:+ nl).

Definition failing_model (prompt : string) : result string :=
  Raise (Py.Exc Py.GenerationError "model failed").

Definition eiffel_text : string :=
  "The Eiffel Tower is in Paris. It was completed in 1889.".

Definition sample_convert (file : uploaded_file) : string :=
  if String.eqb (file_name file) "empty.txt" then "   " else eiffel_text.

Definition sample_documents : list string := ["a"; "b"; "c"; "d"; "e"].

Definition eiffel_record : embedding_record :=
  chunk_record "eiffel.txt" 0 eiffel_text [0.5%float].

(** The world after [eiffel.txt] has been processed. *)
Definition eiffel_world : world :=
  World {[ "uploaded_documents" := [eiffel_record] ]}
        (Some {[ "uploaded_documents" := "uploaded_documents" ]})
        (Session (Some "uploaded_documents") ["eiffel.txt"]
                 (Some {[ "eiffel.txt" := eiffel_text ]}) (Some []) ∅)
        []
        [ProcessedOk 1].

(** A text of 999 characters: two hundred words of four letters. *)
Definition sample_long_text : string :=
  Py.join " " (replicate 200 "word").

(** A batch of two files, the first of which converts to whitespace. *)
Definition sample_batch : list uploaded_file :=
  [UploadedFile "empty.txt" 3; UploadedFile "eiffel.txt" 54].

(** Fifteen searches, the question of search [n] being its number. *)
Definition fifteen_searches : list history_entry :=
  (fun n => HistoryEntry (Py.str_of_nat n) "answer" (Py.VStr "eiffel.txt") "12:00:00")
    <$> seq 1 15.

Section App.

(** The collaborators the repository calls and does not define. *)

(** [SentenceTransformer('all-MiniLM-L6-v2').encode(chunk).tolist()] *)
Variable encode : string -> result (list float).
(** The embedding function the index applies to query texts and to documents
    added with no embedding. *)
Variable default_embed : string -> result (list float).
(** The distance of the index between two embeddings. *)
Variable distance : list float -> list float -> float.
(** [pipeline("text2text-generation", ...)(prompt, max_length=150)[0]['generated_text']] *)
Variable generation_model : string -> result string.
(** The text [convert_to_markdown] returns for the temporary copy of a file.
    The function reads the file and calls the document converter, and it
    catches every exception, so that it always returns a string. *)
Variable convert_to_markdown : uploaded_file -> string.
(** The five documents of [setup_documents]. *)
Variable my_documents : list string.

(** ** The vector index *)

(** Modelled from the spec: [client.get_collection(name=...)], which raises
    when the collection does not exist (section 4.3, get_or_create). *)
Definition get_collection (name : string) : M handle :=
  w ← get_world;
  match chroma w !! name with
  | Some _ => mret name
  | None => raise Py.NotFoundError name
  end.

(** Modelled from the spec: [client.create_collection(name=...)] makes an
    empty collection, and raises when the name is taken. *)
Definition create_collection (name : string) : M handle :=
  w ← get_world;
  match chroma w !! name with
  | Some _ => raise Py.AlreadyExistsError name
  | None => _ ← modify (set_chroma (insert name [])); mret name
  end.

(** Modelled from the spec: [client.delete_collection(name=...)] discards the
    collection with its records, and raises when there is none. *)
Definition delete_collection (name : string) : M unit :=
  w ← get_world;
  match chroma w !! name with
  | Some _ => modify (set_chroma (delete name))
  | None => raise Py.NotFoundError name
  end.

(** Modelled from the spec: the duplicate check of [add] (section 4.3). The
    first identifier of [new] that is in [seen] or earlier in [new]. *)
Fixpoint first_duplicate (seen new : list string) : option string :=
  match new with
  | [] => None
  | i :: rest => if bool_decide (i ∈ seen) then Some i else first_duplicate (i :: seen) rest
  end.

(** Modelled from the spec: [collection.add(...)] rejects an identifier that
    is already present (section 4.3, add: reject duplicate) and stores
    nothing then; otherwise the records are appended. *)
Definition collection_add (c : handle) (new : list embedding_record) : M unit :=
  w ← get_world;
  match chroma w !! c with
  | None => raise Py.NotFoundError c
  | Some recs =>
      match first_duplicate (er_id <$> recs) (er_id <$> new) with
      | Some i => raise Py.DuplicateIDError i
      | None => modify (set_chroma (insert c (recs ++ new)))
      end
  end.

(** Modelled from the spec: the ranking of [query] (section 4.3). Records by
    ascending distance to the query embedding [qv], records at equal
    distance in insertion order. *)
Fixpoint insert_ranked (qv : list float) (r : embedding_record) (l : list embedding_record) : list embedding_record :=
  match l with
  | [] => [r]
  | x :: rest =>
      if PrimFloat.ltb (distance qv (er_embedding r)) (distance qv (er_embedding x))
      then r :: l
      else x :: insert_ranked qv r rest
  end.

Definition ranked (qv : list float) (recs : list embedding_record) : list embedding_record :=
  foldr (insert_ranked qv) [] recs.

(** Modelled from the spec: [collection.query(query_texts=[q], n_results=k)]
    returns at most [k] nearest records by ascending distance, and the empty
    lists for an empty collection (section 4.3, query). *)
Definition query_results (qv : list float) (recs : list embedding_record) (k : nat) : query_result :=
  let hits := take k (ranked qv recs) in
  QueryResult (er_document <$> hits)
              ((fun r => distance qv (er_embedding r)) <$> hits)
              (er_id <$> hits)
              (Some (er_metadata <$> hits)).

(** Modelled from the spec: the query on a collection object. The question
    is embedded by the index, and the call raises when the collection is
    gone or the embedding fails. *)
Definition collection_query (c : handle) (q : string) (k : nat) : M query_result :=
  w ← get_world;
  match chroma w !! c with
  | None => raise Py.NotFoundError c
  | Some recs => qv ← lift (default_embed q); mret (query_results qv recs k)
  end.

(** ** [Finalapp.py] *)

(** [reset_collection(client, collection_name)]. Every client reaches the
    same in-memory index, so the client is not an argument. *)
Definition reset_collection (collection_name : string) : M handle :=
  _ ← try_except (delete_collection collection_name) (fun _ => mret tt);
  new_collection ← create_collection collection_name;
  mret new_collection.

(** The body of the loop over [enumerate(chunks)]. *)
Definition add_chunk (c : handle) (filename : string) (ic : nat * string) : M unit :=
  embedding ← lift (encode ic.2);
  collection_add c [chunk_record filename ic.1 ic.2 embedding].

(** The first half of [add_text_to_chromadb]: the function attributes are
    set on the first call, and the collection is looked up in
    [add_text_to_chromadb.collections], after being fetched from the index,
    or created there, when the name is not yet a key. *)
Definition cached_collection (collection_name : string) : M handle :=
  w ← get_world;
  _ ← match fn_collections w with
      | None => modify (set_fn_collections (Some ∅))
      | Some _ => mret tt
      end;
  w ← get_world;
  let collections := default ∅ (fn_collections w) in
  match collections !! collection_name with
  | None =>
      c ← try_except (get_collection collection_name)
                     (fun _ => create_collection collection_name);
      _ ← modify (set_fn_collections (Some (<[collection_name := c]> collections)));
      mret c
  | Some c => mret c
  end.

(** [add_text_to_chromadb(text, filename, collection_name)] *)
Definition add_text_to_chromadb (text filename collection_name : string) : M handle :=
  let chunks := split_text the_splitter text in
  c ← cached_collection collection_name;
  _ ← for_each (enumerate chunks) (add_chunk c filename);
  mret c.

(** The refusal of [get_answer_with_source] and its source marker. *)
Definition refusal : string :=
  "I cannot answer this question based on the uploaded documents.".
Definition no_source : Py.value := Py.VStr "No source".

(** The relevance threshold. *)
Definition threshold : float := 1.5%float.

(** [not docs or min(distances) > 1.5]; [min] is reached, and raises on an
    empty list, only when [docs] is not empty. *)
Definition insufficient (docs : list string) (distances : list float) : result bool :=
  match docs with
  | [] => Ok true
  | _ =>
      match Py.min distances with
      | None => Raise (Py.Exc Py.ValueError "min() arg is an empty sequence")
      | Some m => Ok (PrimFloat.ltb threshold m)
      end
  end.

(** [metadatas[i].get(key, default)]: [IndexError] past the end of the list,
    [AttributeError] on [None]. *)
Definition metadata_get (metadatas : list (option metadata)) (i : nat) (key : string) (dflt : Py.value) : result Py.value :=
  match metadatas !! i with
  | None => Raise (Py.Exc Py.IndexError "list index out of range")
  | Some None => Raise (Py.Exc Py.AttributeError "'NoneType' object has no attribute 'get'")
  | Some (Some md) => Ok (default dflt (md !! key))
  end.

(** [f"Document {i+1} (from {metadatas[i].get('filename', 'unknown')}): {doc}"] *)
Definition context_entry (metadatas : list (option metadata)) (idoc : nat * string) : result string :=
  name ← metadata_get metadatas idoc.1 "filename" (Py.VStr "unknown");
  Ok ("Document " +:+ Py.str_of_nat (idoc.1 + 1) +:+ " (from " +:+ Py.str name +:+ "): " +:+ idoc.2).

(** [f"Document {i+1}: {doc}"] *)
Definition plain_entry (idoc : nat * string) : string :=
  "Document " +:+ Py.str_of_nat (idoc.1 + 1) +:+ ": " +:+ idoc.2.

(** The context block of [get_answer_with_source]. *)
Definition build_context (metadatas : list (option metadata)) (docs : list string) : result string :=
  match metadatas with
  | [] => Ok (Py.join (nl +:+ nl) (plain_entry <$> enumerate docs))
  | _ => entries ← mapR (context_entry metadatas) (enumerate docs);
         Ok (Py.join (nl +:+ nl) entries)
  end.

Definition instructions : string :=
  "Instructions: Answer ONLY using the information provided above. If the answer is not in the context, respond with "
  +:+ dquote +:+ "I don't know." +:+ dquote
  +:+ " Do not add information from outside the context.".

(** The f-string of the prompt. *)
Definition build_prompt (context question : string) : string :=
  "Context information:" +:+ nl +:+ context +:+ nl +:+ nl
  +:+ "Question: " +:+ question +:+ nl +:+ nl
  +:+ instructions +:+ nl +:+ nl
  +:+ "Answer:".

(** The call of the generation model; the prompt is logged when the call is
    made, whether or not it raises. *)
Definition call_model (prompt : string) : M string := fun w =>
  (generation_model prompt, log_prompt prompt w).

(** Step 8 of [get_answer_with_source]. The fallback reads the identifier;
    nothing in it can raise on strings, so its [try] has no effect. *)
Definition best_source_of (metadatas : list (option metadata)) (ids : list string) : result Py.value :=
  match metadatas with
  | _ :: _ => metadata_get metadatas 0 "filename" (Py.VStr "Unknown source")
  | [] =>
      match ids with
      | i :: _ => Ok (Py.VStr (Py.split_head "_chunk_" i))
      | [] => Ok (Py.VStr "Unknown source")
      end
  end.

(** [get_answer_with_source(collection, question)] *)
Definition get_answer_with_source (c : handle) (question : string) : M (string * Py.value) :=
  results ← collection_query c question 3;
  let docs := qr_documents results in
  let distances := qr_distances results in
  let ids := qr_ids results in
  let metadatas := default [] (qr_metadatas results) in
  gate ← lift (insufficient docs distances);
  if (gate : bool) then mret (refusal, no_source)
  else
    context ← lift (build_context metadatas docs);
    let prompt := build_prompt context question in
    generated_text ← call_model prompt;
    let answer := Py.strip generated_text in
    best_source ← lift (best_source_of metadatas ids);
    mret (answer, best_source).

(** [add_to_search_history(question, answer, source)], [now] being the text
    of [datetime.now().strftime("%H:%M:%S")] at the call. *)
Definition history_insert (e : history_entry) (h : option (list history_entry)) : list history_entry :=
  let h1 := e :: default [] h in
  if 10 <? length h1 then take 10 h1 else h1.

Definition set_search_history (h : option (list history_entry)) (s : session) : session :=
  Session (collection s) (uploaded_files_processed s) (document_contents s) h (show_preview s).

Definition add_to_search_history (question answer : string) (source : Py.value) (now : string) : M unit :=
  modify (set_session (fun s =>
    set_search_history (Some (history_insert (HistoryEntry question answer source now) (search_history s))) s)).

(** The delete button of card [i] in [show_document_manager]: there is a
    card, and a button, for each index of the processed list. *)
Definition delete_document (i : nat) (filename : string) (s : session) : session :=
  Session (collection s)
          (delete i (uploaded_files_processed s))
          (delete filename <$> document_contents s)
          (search_history s)
          (delete i (show_preview s)).

Definition delete_clicked (i : nat) : M unit :=
  w ← get_world;
  match uploaded_files_processed (session_state w) !! i with
  | None => mret tt
  | Some filename =>
      _ ← modify (set_session (delete_document i filename));
      _ ← modify (show (Removed filename));
      modify (show Rerun)
  end.

(** The search button of the question tab in [create_tabbed_interface]. *)
Definition search_clicked (question now : string) : M unit :=
  w ← get_world;
  match collection (session_state w) with
  | Some c =>
      if Py.truthy (Py.strip question)
      then try_except
             (r ← get_answer_with_source c question;
              _ ← modify (show (ShowAnswer r.1 r.2));
              add_to_search_history question r.1 r.2 now)
             (fun e => modify (show (ErrorGeneratingAnswer (Py.msg e))))
      else modify (show EnterQuestion)
  | None => modify (show NoDocumentsYet)
  end.

(** The local variables of the process handler that its loop updates. *)
Record batch : Type := Batch {
  b_collection : handle;
  processed_files : list string;
  b_document_contents : gmap string string;
  processing_errors : list processing_error;
}.

(** [f"# {file.name}\n\nDocument appears to be empty or corrupted."] *)
Definition placeholder (name : string) : string :=
  "# " +:+ name +:+ nl +:+ nl +:+ "Document appears to be empty or corrupted.".

(** [not text or len(text.strip()) < 10] *)
Definition too_short (text : string) : bool :=
  negb (Py.truthy text) || (Py.len (Py.strip text) <? 10).

(** The body of the loop over [valid_files]. The temporary file is written
    and removed around the conversion; only [add_text_to_chromadb] raises. *)
Definition process_file (b : batch) (file : uploaded_file) : M batch :=
  let name := file_name file in
  let text := convert_to_markdown file in
  let text' := if too_short text then placeholder name else text in
  let errors := if too_short text
                then processing_errors b ++ [EmptyOrCorrupted name]
                else processing_errors b in
  let contents := <[name := text']> (b_document_contents b) in
  try_except
    (c ← add_text_to_chromadb text' name "uploaded_documents";
     mret (Batch c (processed_files b ++ [name]) contents errors))
    (fun e => mret (Batch (b_collection b) (processed_files b) contents
                          (errors ++ [Failed name (Py.msg e)]))).

(** [for file in files: b = body(b, file)] *)
Fixpoint foldM {A B : Type} (body : B -> A -> M B) (b : B) (l : list A) : M B :=
  match l with
  | [] => mret b
  | x :: rest => b' ← body b x; foldM body b' rest
  end.

(** [len(file.getvalue()) / (1024 * 1024) > 10]: the division by a power of
    two and the comparison are exact on floats. *)
Definition too_large (file : uploaded_file) : bool :=
  (10 * 1024 * 1024 <? file_size file)%N.

(** The process button of the upload tab in [create_tabbed_interface]. *)
Definition process_clicked (uploaded_files : list uploaded_file) : M unit :=
  match uploaded_files with
  | [] => modify (show UploadFirst)
  | _ =>
      let valid_files := filter (fun f => too_large f = false) uploaded_files in
      _ ← for_each (filter (fun f => too_large f = true) uploaded_files)
                   (fun f => modify (show (FileTooLarge (file_name f))));
      match valid_files with
      | [] => mret tt
      | _ =>
          c ← reset_collection "uploaded_documents";
          b ← foldM process_file (Batch c [] ∅ []) valid_files;
          _ ← modify (set_session (fun s =>
                 Session (Some (b_collection b)) (processed_files b)
                         (Some (b_document_contents b)) (search_history s) (show_preview s)));
          match processed_files b with
          | [] => modify (show NothingProcessed)
          | _ =>
              _ ← modify (show (ProcessedOk (length (processed_files b))));
              for_each (processing_errors b) (fun e => modify (show (ProcessingWarning e)))
          end
      end
  end.

(** ** [app.py] *)

(** The refusal of [get_answer] in [app.py]. *)
Definition refusal_app : string :=
  "I cannot answer this question with my knowledge.".

(** [setup_documents()]: the documents go in under the fixed identifiers
    [doc1] to [doc5], with no metadata, embedded by the index. *)
Definition setup_documents : M handle :=
  c ← try_except (get_collection "docs") (fun _ => create_collection "docs");
  let ids := ["doc1"; "doc2"; "doc3"; "doc4"; "doc5"] in
  if bool_decide (length my_documents = length ids)
  then
    embeddings ← lift (mapR default_embed my_documents);
    _ ← collection_add c
          ((fun x => EmbeddingRecord x.1.1 x.2 x.1.2 None) <$> zip (zip ids my_documents) embeddings);
    mret c
  else raise Py.ValueError "Number of documents must match number of ids".

(** [get_answer(collection, question)] of [app.py] *)
Definition get_answer (c : handle) (question : string) : M string :=
  results ← collection_query c question 3;
  let docs := qr_documents results in
  let distances := qr_distances results in
  gate ← lift (insufficient docs distances);
  if (gate : bool) then mret refusal_app
  else
    let context := Py.join (nl +:+ nl) (plain_entry <$> enumerate docs) in
    let prompt := build_prompt context question in
    generated_text ← call_model prompt;
    mret (Py.strip generated_text).

(** Recording a list of searches, oldest first, each entry giving the
    question, the answer, the source and the time of its call. *)
Definition record_searches (l : list history_entry) : M unit :=
  for_each l (fun e =>
    add_to_search_history (h_question e) (h_answer e) (h_source e) (h_timestamp e)).

(** The history after a run, [[]] when the key is absent. *)
Definition history_of (w : world) : list history_entry :=
  default [] (search_history (session_state w)).

(** Everything but the history is left as it was. *)
Definition same_but_history (w w' : world) : Prop :=
  chroma w' = chroma w /\ fn_collections w' = fn_collections w
  /\ prompts w' = prompts w /\ page w' = page w
  /\ collection (session_state w') = collection (session_state w)
  /\ uploaded_files_processed (session_state w') = uploaded_files_processed (session_state w)
  /\ document_contents (session_state w') = document_contents (session_state w)
  /\ show_preview (session_state w') = show_preview (session_state w).

(** The record was stored with a metadata dict. *)
Definition has_metadata (r : embedding_record) : Prop := is_Some (er_metadata r).

(** The filename entry of a metadata dict, as a string. *)
Definition filename_of (md : option metadata) : option string :=
  match md with
  | Some m => match m !! "filename" with Some (Py.VStr f) => Some f | _ => None end
  | None => None
  end.

(** What [get_answer_with_source] does once the gate is passed and the
    context is built: the model is called, and the answer and the source
    are put together from its text. *)
Definition answer_of (generated : result string) (source : result Py.value) : result (string * Py.value) :=
  text ← generated; src ← source; Ok (Py.strip text, src).

(** The records a query for [qv] returns, nearest first. *)
Definition hits_of (qv : list float) (recs : list embedding_record) (k : nat) : list embedding_record :=
  take k (ranked qv recs).

(** The context entry of the hit at rank [i], as [get_answer_with_source]
    renders it from the metadata of the hit. *)
Definition entry_of (i : nat) (r : embedding_record) : string :=
  "Document " +:+ Py.str_of_nat (i + 1) +:+ " (from "
  +:+ Py.str (default (Py.VStr "unknown") (default ∅ (er_metadata r) !! "filename"))
  +:+ "): " +:+ er_document r.

(** The prompt for a list of hits that all carry metadata. *)
Definition prompt_of (hits : list embedding_record) (question : string) : string :=
  build_prompt (Py.join (nl +:+ nl) (imap entry_of hits)) question.

(** The source read from the metadata of the first hit. *)
Definition source_of (hits : list embedding_record) : Py.value :=
  default (Py.VStr "Unknown source")
          (default ∅ (head hits ≫= er_metadata) !! "filename").

(** The distances a query for [qv] reports for [hits]. *)
Definition distances_of (qv : list float) (hits : list embedding_record) : list float :=
  (fun r => distance qv (er_embedding r)) <$> hits.

(** The prompt of [get_answer] in [app.py] for a list of hits. *)
Definition plain_prompt_of (hits : list embedding_record) (question : string) : string :=
  build_prompt (Py.join (nl +:+ nl) (plain_entry <$> enumerate (er_document <$> hits))) question.

(** The answer of [get_answer] in [app.py], from the text of the model. *)
Definition plain_answer_of (generated : result string) : result string :=
  text ← generated; Ok (Py.strip text).

(** The evidence a list of hits gives: the filename and the text of each
    hit, in rank order; [None] when a hit has no filename in its metadata. *)
Definition evidence_of (hits : list embedding_record) : option (list (string * string)) :=
  mapM (fun r => f ← filename_of (er_metadata r); Some (f, er_document r)) hits.

(** The prompt as section 4.5 of the specification words it: each chunk is
    rendered as [Document {i} (from {filename}): {chunk text}], numbered
    from 1, the renderings are joined with blank lines, and the prompt is the
    context block, the question, the instruction block and the answer cue. *)
Definition spec_entry (i : nat) (filename text : string) : string :=
  "Document " +:+ Py.str_of_nat i +:+ " (from " +:+ filename +:+ "): " +:+ text.

Definition spec_context (evidence : list (string * string)) : string :=
  Py.join (nl +:+ nl) (imap (fun i e => spec_entry (S i) e.1 e.2) evidence).

Definition spec_prompt (evidence : list (string * string)) (question : string) : string :=
  ("Context information:" +:+ nl +:+ spec_context evidence +:+ nl +:+ nl)
  +:+ ("Question: " +:+ question +:+ nl +:+ nl)
  +:+ (instructions +:+ nl +:+ nl)
  +:+ "Answer:".

(** Every character of [s] is whitespace. *)
Fixpoint all_space (s : string) : bool :=
  match s with
  | EmptyString => true
  | String c s' => Py.py_isspace c && all_space s'
  end.

(** The first and the last character of a string. *)
Definition first_char (s : string) : option ascii :=
  match s with
  | EmptyString => None
  | String c _ => Some c
  end.

Fixpoint last_char (s : string) : option ascii :=
  match s with
  | EmptyString => None
  | String c EmptyString => Some c
  | String _ s' => last_char s'
  end.

(** [s] neither starts nor ends with whitespace. *)
Definition trimmed (s : string) : Prop :=
  (forall c, first_char s = Some c -> Py.py_isspace c = false)
  /\ (forall c, last_char s = Some c -> Py.py_isspace c = false).

(** The result of a query on a collection with no record. *)
Definition empty_results : query_result := QueryResult [] [] [] (Some []).

(** A property of the world that a computation keeps, whether it returns or
    raises. *)
Definition preserves {A : Type} (P : world -> Prop) (c : M A) : Prop :=
  forall w, P w -> P (c w).2.

(** A property of the records that holds in every collection. *)
Definition per_collection (Q : list embedding_record -> Prop) (w : world) : Prop :=
  forall c recs, chroma w !! c = Some recs -> Q recs.

(** Identifiers are unique within each collection. *)
Definition ids_unique : world -> Prop :=
  per_collection (fun recs => NoDup (er_id <$> recs)).

(** The record carries a filename in its metadata. *)
Definition has_filename (r : embedding_record) : Prop :=
  is_Some (filename_of (er_metadata r)).

(** Every record of every collection carries a filename. *)
Definition all_have_filename : world -> Prop :=
  per_collection (Forall has_filename).

(** Every character of [s] is a decimal digit. *)
Fixpoint all_digits (s : string) : bool :=
  match s with
  | EmptyString => true
  | String c s' => bool_decide (is_Some (Ascii.is_nat c)) && all_digits s'
  end.

(** The characters of a string, last first. *)
Fixpoint rev_chars (s : string) : list ascii :=
  match s with
  | EmptyString => []
  | String c s' => rev_chars s' ++ [c]
  end.

(** The record is labelled as a chunk of a file: its identifier is
    [{filename}_chunk_{index}] for the filename and the chunk index of its
    metadata. *)
Definition well_labelled (r : embedding_record) : Prop :=
  exists filename i md,
    er_metadata r = Some md
    /\ md !! "filename" = Some (Py.VStr filename)
    /\ md !! "chunk_index" = Some (Py.VInt i)
    /\ er_id r = chunk_id filename i.

(** Every record of every collection is labelled as a chunk of a file. *)
Definition all_well_labelled : world -> Prop :=
  per_collection (Forall well_labelled).

(** A property of the world that only reads the index. *)
Definition chroma_only (P : world -> Prop) : Prop :=
  forall w w', chroma w' = chroma w -> P w -> P w'.

(** The text of a file that the process handler stores and indexes. *)
Definition stored_text (file : uploaded_file) : string :=
  if too_short (convert_to_markdown file)
  then placeholder (file_name file)
  else convert_to_markdown file.

(** * Properties *)

(** ** Session memory *)

Lemma history_insert_take e h :
  history_insert e h = take 10 (e :: default [] h).
Proof.
  unfold history_insert. destruct (Nat.ltb_spec 10 (length (e :: default [] h))) as [H|H].
  - reflexivity.
  - symmetry. apply take_ge. exact H.
Qed.

Lemma take_app_take {A : Type} (n : nat) (r l : list A) :
  take n (r ++ take n l) = take n (r ++ l).
Proof.
  rewrite !take_app, take_take. do 2 f_equal. lia.
Qed.

Lemma add_to_search_history_run q a s now w :
  add_to_search_history q a s now w
  = (Ok tt, set_session (set_search_history
       (Some (take 10 (HistoryEntry q a s now :: history_of w)))) w).
Proof.
  unfold add_to_search_history, modify, set_session.
  rewrite history_insert_take. reflexivity.
Qed.

Lemma record_searches_run l w :
  exists w', record_searches l w = (Ok tt, w')
    /\ same_but_history w w'
    /\ match l with
       | [] => w' = w
       | _ => search_history (session_state w')
              = Some (take 10 (reverse l ++ history_of w))
       end.
Proof.
  revert w. induction l as [|e l IH]; intros w.
  - exists w. split; [reflexivity|]. split; [by repeat split | reflexivity].
  - unfold record_searches. cbn [for_each]. unfold mbind, M_bind.
    rewrite add_to_search_history_run.
    set (w1 := set_session _ w).
    destruct (IH w1) as (w' & Hrun & Hsame & Hh).
    exists w'. unfold record_searches in Hrun. rewrite Hrun.
    split; [reflexivity|]. split.
    + destruct Hsame as (?&?&?&?&?&?&?&?). by repeat split.
    + destruct e as [q a s t]. destruct l as [|e' l].
      * subst w'. reflexivity.
      * rewrite Hh. f_equal. unfold history_of at 1.
        change (search_history (session_state w1))
          with (Some (take 10 (HistoryEntry q a s t :: history_of w))).
        cbn [default id]. rewrite take_app_take.
        rewrite (reverse_cons (e' :: l)), <- app_assoc. reflexivity.
Qed.

(** C7. A call of [add_to_search_history] puts the new entry, with its
    question, answer, source and timestamp, at the front of the history and
    keeps the ten newest entries, newest first, changing nothing else. After
    fifteen recordings into an empty history exactly ten entries remain: the
    sixth to the fifteenth, newest first. *)
Theorem C7_history_bound :
  (forall q a s now w,
      exists w', add_to_search_history q a s now w = (Ok tt, w')
        /\ same_but_history w w'
        /\ search_history (session_state w')
           = Some (take 10 (HistoryEntry q a s now :: history_of w)))
  /\ (forall l w,
        length l = 15 -> history_of w = [] ->
        exists w', record_searches l w = (Ok tt, w')
          /\ search_history (session_state w') = Some (reverse (drop 5 l))
          /\ length (reverse (drop 5 l)) = 10).
Proof.
  split.
  - intros q a s now w. eexists. split; [apply add_to_search_history_run|].
    split; [by repeat split | reflexivity].
  - intros l w Hl Hw.
    destruct (record_searches_run l w) as (w' & Hrun & _ & Hh).
    exists w'. split; [exact Hrun|].
    destruct l as [|e l]; [discriminate|].
    split.
    + rewrite Hh, Hw, app_nil_r. f_equal.
      rewrite <- (take_drop 5 (e :: l)) at 1. rewrite reverse_app.
      rewrite take_app_length'; [reflexivity|].
      rewrite length_reverse, length_drop. lia.
    + rewrite length_reverse, length_drop. lia.
Qed.

(** ** Running the monad *)

Ltac run :=
  repeat (unfold mbind, M_bind, mret, M_ret, get_world, lift, modify, raise, try_except; cbn beta iota).

Ltac wsimpl :=
  cbn [chroma fn_collections session_state prompts page
       set_chroma set_fn_collections set_session log_prompt show
       default from_option id fst snd].

Lemma collection_query_run c q k w recs qv :
  chroma w !! c = Some recs ->
  default_embed q = Ok qv ->
  collection_query c q k w = (Ok (query_results qv recs k), w).
Proof.
  intros Hc Hq. unfold collection_query. run. rewrite Hc. run. rewrite Hq. reflexivity.
Qed.

Lemma query_results_lengths qv recs k :
  let r := query_results qv recs k in
  length (qr_distances r) = length (qr_documents r)
  /\ length (qr_ids r) = length (qr_documents r)
  /\ length (default [] (qr_metadatas r)) = length (qr_documents r).
Proof.
  cbn. by rewrite !length_fmap.
Qed.

(** ** The relevance gate *)

Lemma Prim2SF_threshold :
  Prim2SF threshold = S754_finite false 6755399441055744 (-52).
Proof. vm_compute. reflexivity. Qed.

Lemma SFcompare_threshold_antisym x :
  SFleb x (Prim2SF threshold) = true -> SFltb (Prim2SF threshold) x = false.
Proof.
  rewrite Prim2SF_threshold.
  unfold SFleb, SFltb.
  destruct x as [[]|[]| |[] m e]; cbn [SFcompare];
    try (intros _; reflexivity); try (intros H; exact (eq_sym H)).
  assert (Hm : Pos.compare_cont Eq 6755399441055744 m
               = CompOpp (Pos.compare_cont Eq m 6755399441055744))
    by (symmetry; apply (Pos.compare_cont_antisym m _ Eq)).
  rewrite (Z.compare_antisym e (-52)), Hm.
  destruct (e ?= -52)%Z; cbn [CompOpp];
    [destruct (Pos.compare_cont Eq m 6755399441055744); cbn [CompOpp] | |];
    intros H; first [reflexivity | exact (eq_sym H)].
Qed.

Lemma leb_threshold_not_above m :
  PrimFloat.leb m threshold = true -> PrimFloat.ltb threshold m = false.
Proof.
  rewrite leb_spec, ltb_spec. apply SFcompare_threshold_antisym.
Qed.

Lemma min_nonempty (l : list float) : l <> [] -> is_Some (Py.min l).
Proof. destruct l; [congruence | eauto]. Qed.

Lemma context_entry_hit (l : list embedding_record) i r :
  l !! i = Some r -> has_metadata r ->
  context_entry (er_metadata <$> l) (i, er_document r) = Ok (entry_of i r).
Proof.
  intros Hl [md Hr]. unfold context_entry, metadata_get. cbn [fst snd].
  rewrite list_lookup_fmap, Hl. cbn. rewrite Hr. cbn.
  unfold entry_of. rewrite Hr. reflexivity.
Qed.

Lemma mapR_context_entry (pre hits : list embedding_record) :
  Forall has_metadata hits ->
  mapR (context_entry (er_metadata <$> (pre ++ hits)))
       (zip (seq (length pre) (length (er_document <$> hits))) (er_document <$> hits))
  = Ok (imap (fun i => entry_of (length pre + i)) hits).
Proof.
  revert pre. induction hits as [|r hits IH]; intros pre Hmd; [reflexivity|].
  inversion Hmd as [|? ? Hr Hrest]; subst.
  cbn [fmap list_fmap length seq zip zip_with mapR imap].
  rewrite (context_entry_hit (pre ++ r :: hits) (length pre) r).
  - replace (pre ++ r :: hits) with ((pre ++ [r]) ++ hits) by (by rewrite <- app_assoc).
    specialize (IH (pre ++ [r]) Hrest). rewrite length_app in IH. cbn [length] in IH.
    rewrite Nat.add_1_r in IH. cbn [mbind result_bind].
    unfold mbind, result_bind. rewrite IH. rewrite Nat.add_0_r.
    f_equal. f_equal. apply imap_ext. intros i x _. cbn. f_equal. lia.
  - rewrite lookup_app_r, Nat.sub_diag by lia. reflexivity.
  - exact Hr.
Qed.

Lemma build_context_hits (hits : list embedding_record) :
  Forall has_metadata hits ->
  build_context (er_metadata <$> hits) (er_document <$> hits)
  = Ok (Py.join (nl +:+ nl) (imap entry_of hits)).
Proof.
  intros Hmd. destruct hits as [|r hits]; [reflexivity|].
  pose proof (mapR_context_entry [] (r :: hits) Hmd) as H.
  unfold build_context, enumerate.
  cbn [fmap list_fmap app length] in *. rewrite H. reflexivity.
Qed.

Lemma best_source_hits (hits : list embedding_record) :
  hits <> [] -> Forall has_metadata hits ->
  best_source_of (er_metadata <$> hits) (er_id <$> hits) = Ok (source_of hits).
Proof.
  intros Hne Hmd. destruct hits as [|r hits]; [congruence|].
  inversion Hmd as [|? ? [md Hr] _]; subst.
  unfold source_of. cbn. unfold metadata_get. cbn. rewrite Hr. reflexivity.
Qed.

Lemma insufficient_nonempty docs distances m :
  docs <> [] -> Py.min distances = Some m ->
  insufficient docs distances = Ok (PrimFloat.ltb threshold m).
Proof.
  intros Hne Hm. unfold insufficient. rewrite Hm. by destruct docs.
Qed.

Lemma distances_of_nonempty qv hits m :
  Py.min (distances_of qv hits) = Some m -> hits <> [].
Proof. by destruct hits. Qed.

Lemma get_answer_with_source_query c question w recs qv :
  chroma w !! c = Some recs ->
  default_embed question = Ok qv ->
  get_answer_with_source c question w
  = (let hits := hits_of qv recs 3 in
     gate ← lift (insufficient (er_document <$> hits) (distances_of qv hits));
     if (gate : bool) then mret (refusal, no_source)
     else
       context ← lift (build_context (er_metadata <$> hits) (er_document <$> hits));
       generated_text ← call_model (build_prompt context question);
       best_source ← lift (best_source_of (er_metadata <$> hits) (er_id <$> hits));
       mret (Py.strip generated_text, best_source)) w.
Proof.
  intros Hc Hq. unfold get_answer_with_source. unfold mbind at 1, M_bind at 1.
  rewrite (collection_query_run c question 3 w recs qv Hc Hq). reflexivity.
Qed.

(** The three ways a call of [get_answer_with_source] goes on a collection
    that exists, for a question the index can embed. *)
Lemma get_answer_with_source_run c question w recs qv :
  chroma w !! c = Some recs ->
  default_embed question = Ok qv ->
  (hits_of qv recs 3 = [] ->
     get_answer_with_source c question w = (Ok (refusal, no_source), w))
  /\ (forall m, Py.min (distances_of qv (hits_of qv recs 3)) = Some m ->
        PrimFloat.ltb threshold m = true ->
        get_answer_with_source c question w = (Ok (refusal, no_source), w))
  /\ (forall m, Py.min (distances_of qv (hits_of qv recs 3)) = Some m ->
        PrimFloat.ltb threshold m = false ->
        Forall has_metadata (hits_of qv recs 3) ->
        get_answer_with_source c question w
        = (answer_of (generation_model (prompt_of (hits_of qv recs 3) question))
                     (Ok (source_of (hits_of qv recs 3))),
           log_prompt (prompt_of (hits_of qv recs 3) question) w)).
Proof.
  intros Hc Hq. rewrite (get_answer_with_source_query c question w recs qv Hc Hq).
  generalize (hits_of qv recs 3). intros hits. cbn zeta.
  split; [|split].
  - intros ->. reflexivity.
  - intros m Hm Hgt.
    pose proof (distances_of_nonempty _ _ _ Hm) as Hne.
    rewrite (insufficient_nonempty _ _ m) by (by destruct hits || exact Hm).
    rewrite Hgt. reflexivity.
  - intros m Hm Hle Hmd.
    pose proof (distances_of_nonempty _ _ _ Hm) as Hne.
    rewrite (insufficient_nonempty _ _ m) by (by destruct hits || exact Hm).
    rewrite Hle, (build_context_hits hits Hmd), (best_source_hits hits Hne Hmd).
    run. unfold call_model, answer_of, prompt_of.
    destruct (generation_model _); reflexivity.
Qed.

Lemma get_answer_run c question w recs qv :
  chroma w !! c = Some recs ->
  default_embed question = Ok qv ->
  (hits_of qv recs 3 = [] -> get_answer c question w = (Ok refusal_app, w))
  /\ (forall m, Py.min (distances_of qv (hits_of qv recs 3)) = Some m ->
        PrimFloat.ltb threshold m = true ->
        get_answer c question w = (Ok refusal_app, w))
  /\ (forall m, Py.min (distances_of qv (hits_of qv recs 3)) = Some m ->
        PrimFloat.ltb threshold m = false ->
        get_answer c question w
        = (plain_answer_of (generation_model (plain_prompt_of (hits_of qv recs 3) question)),
           log_prompt (plain_prompt_of (hits_of qv recs 3) question) w)).
Proof.
  intros Hc Hq.
  assert (Hrun : get_answer c question w
    = (let hits := hits_of qv recs 3 in
       gate ← lift (insufficient (er_document <$> hits) (distances_of qv hits));
       if (gate : bool) then mret refusal_app
       else generated_text ← call_model (plain_prompt_of hits question);
            mret (Py.strip generated_text)) w).
  { unfold get_answer. unfold mbind at 1, M_bind at 1.
    rewrite (collection_query_run c question 3 w recs qv Hc Hq). reflexivity. }
  rewrite Hrun. clear Hrun. cbn zeta.
  generalize (hits_of qv recs 3). intros hits.
  split; [|split].
  - intros ->. reflexivity.
  - intros m Hm Hgt.
    pose proof (distances_of_nonempty _ _ _ Hm) as Hne.
    rewrite (insufficient_nonempty _ _ m) by (by destruct hits || exact Hm).
    run. rewrite Hgt. reflexivity.
  - intros m Hm Hle.
    pose proof (distances_of_nonempty _ _ _ Hm) as Hne.
    rewrite (insufficient_nonempty _ _ m) by (by destruct hits || exact Hm).
    run. rewrite Hle. unfold call_model, plain_answer_of.
    destruct (generation_model _); reflexivity.
Qed.

(** C1. On a collection that exists and a question the index embeds: when
    the query returns no document, or the minimum of the returned distances
    is above 1.5, [get_answer_with_source] returns the fixed refusal with the
    source [No source] and leaves the world as it was, so no prompt reaches
    the generation model ([get_answer] of [app.py] returns its own fixed
    refusal in the same way). When the minimum is at most 1.5 the context is
    built from the hits and the model is called once, with that prompt. *)
Theorem C1_sufficiency_gate c question w recs qv :
  chroma w !! c = Some recs ->
  default_embed question = Ok qv ->
  let results := query_results qv recs 3 in
  ((qr_documents results = []
    \/ exists m, Py.min (qr_distances results) = Some m /\ PrimFloat.ltb threshold m = true) ->
   get_answer_with_source c question w = (Ok (refusal, no_source), w)
   /\ prompts (get_answer_with_source c question w).2 = prompts w
   /\ get_answer c question w = (Ok refusal_app, w))
  /\ (forall m, Py.min (qr_distances results) = Some m ->
        PrimFloat.leb m threshold = true ->
        (Forall has_metadata (hits_of qv recs 3) ->
         exists context,
           build_context (default [] (qr_metadatas results)) (qr_documents results) = Ok context
           /\ get_answer_with_source c question w
              = (answer_of (generation_model (build_prompt context question))
                           (Ok (source_of (hits_of qv recs 3))),
                 log_prompt (build_prompt context question) w)
           /\ prompts (get_answer_with_source c question w).2
              = prompts w ++ [build_prompt context question])
        /\ get_answer c question w
           = (plain_answer_of (generation_model (plain_prompt_of (hits_of qv recs 3) question)),
              log_prompt (plain_prompt_of (hits_of qv recs 3) question) w)).
Proof.
  intros Hc Hq results.
  destruct (get_answer_with_source_run c question w recs qv Hc Hq) as (Hempty & Hfar & Hnear).
  destruct (get_answer_run c question w recs qv Hc Hq) as (Hempty' & Hfar' & Hnear').
  split.
  - intros Hgate.
    assert (Hr : get_answer_with_source c question w = (Ok (refusal, no_source), w)
                 /\ get_answer c question w = (Ok refusal_app, w)).
    { destruct Hgate as [Hdocs | (m & Hm & Hgt)].
      - assert (Hh : hits_of qv recs 3 = []).
        { apply (fmap_nil_inv er_document). exact Hdocs. }
        split; [apply Hempty | apply Hempty']; exact Hh.
      - split; [apply (Hfar m) | apply (Hfar' m)]; assumption. }
    destruct Hr as [Hr1 Hr2]. rewrite Hr1. repeat split; assumption.
  - intros m Hm Hle. pose proof (leb_threshold_not_above m Hle) as Hngt.
    split.
    + intros Hmd. exists (Py.join (nl +:+ nl) (imap entry_of (hits_of qv recs 3))).
      split; [apply (build_context_hits _ Hmd)|].
      rewrite (Hnear m Hm Hngt Hmd). split; reflexivity.
    + apply (Hnear' m Hm Hngt).
Qed.

(** ** Strings *)

Lemma append_cons (c : ascii) (a b : string) :
  String c a +:+ b = String c (a +:+ b).
Proof. reflexivity. Qed.

Lemma append_nil_r (s : string) : s +:+ "" = s.
Proof. induction s as [|c s IH]; [reflexivity|]. by rewrite append_cons, IH. Qed.

Lemma append_assoc (a b c : string) : (a +:+ b) +:+ c = a +:+ (b +:+ c).
Proof. induction a as [|x a IH]; [reflexivity|]. by rewrite !append_cons, IH. Qed.

Lemma length_append (a b : string) :
  String.length (a +:+ b) = String.length a + String.length b.
Proof. induction a as [|x a IH]; [reflexivity|]. rewrite append_cons. cbn. by rewrite IH. Qed.

Lemma lstrip_spec (s : string) :
  exists l, s = l +:+ Py.lstrip s /\ all_space l = true
            /\ (forall c, first_char (Py.lstrip s) = Some c -> Py.py_isspace c = false).
Proof.
  induction s as [|c s (l & Hs & Hl & Hf)].
  - exists "". repeat split. intros c Hc. discriminate.
  - cbn [Py.lstrip]. destruct (Py.py_isspace c) eqn:Ec.
    + exists (String c l). split; [by rewrite append_cons, <- Hs|].
      split; [cbn; by rewrite Ec, Hl | exact Hf].
    + exists "". repeat split. intros c' Hc'. cbn in Hc'. by injection Hc' as <-.
Qed.

Lemma rstrip_spec (s : string) :
  exists r, s = Py.rstrip s +:+ r /\ all_space r = true
            /\ (forall c, last_char (Py.rstrip s) = Some c -> Py.py_isspace c = false).
Proof.
  induction s as [|c s (r & Hs & Hr & Hlast)].
  - exists "". repeat split. intros c Hc. discriminate.
  - cbn [Py.rstrip]. destruct (Py.rstrip s) as [|c' s'] eqn:Es.
    + destruct (Py.py_isspace c) eqn:Ec.
      * exists (String c r). split; [by rewrite Hs|].
        split; [cbn; by rewrite Ec, Hr|]. intros ? ?. discriminate.
      * exists r. split; [by rewrite Hs|]. split; [exact Hr|].
        intros c0 Hc0. cbn in Hc0. by injection Hc0 as <-.
    + exists r. split; [rewrite Hs at 1; reflexivity|]. split; [exact Hr|].
      intros c0 Hc0. apply Hlast. exact Hc0.
Qed.

Lemma last_char_lstrip (s : string) c :
  last_char (Py.lstrip s) = Some c -> last_char s = Some c.
Proof.
  induction s as [|x s IH]; [done|]. cbn [Py.lstrip].
  destruct (Py.py_isspace x) eqn:Ex; [|done].
  intros H. specialize (IH H). cbn [last_char]. destruct s; [discriminate | exact IH].
Qed.

(** [s.strip()] is [s] without its leading and trailing whitespace. *)
Lemma strip_spec (s : string) :
  exists l r, s = l +:+ Py.strip s +:+ r
              /\ all_space l = true /\ all_space r = true /\ trimmed (Py.strip s).
Proof.
  destruct (rstrip_spec s) as (r & Hs & Hr & Hlast).
  destruct (lstrip_spec (Py.rstrip s)) as (l & Hs' & Hl & Hfirst).
  exists l, r. unfold Py.strip. split.
  - rewrite <- append_assoc, <- Hs'. exact Hs.
  - repeat split; try assumption.
    intros c Hc. apply Hlast. by apply last_char_lstrip.
Qed.

(** ** Source attribution and the prompt *)

Lemma evidence_entry i r f :
  filename_of (er_metadata r) = Some f ->
  entry_of i r = spec_entry (i + 1) f (er_document r).
Proof.
  unfold filename_of, entry_of, spec_entry.
  destruct (er_metadata r) as [md|]; [|discriminate]. cbn [default from_option id].
  destruct (md !! "filename") as [[f'|]|]; try discriminate.
  intros [= ->]. reflexivity.
Qed.

Lemma evidence_has_metadata hits evidence :
  evidence_of hits = Some evidence -> Forall has_metadata hits.
Proof.
  intros H. apply mapM_Some_1 in H. induction H as [|r e hits ev Hr _ IH]; constructor; [|exact IH].
  unfold has_metadata. destruct (er_metadata r); [eauto | discriminate].
Qed.

Lemma evidence_entries hits evidence k :
  evidence_of hits = Some evidence ->
  imap (fun i => entry_of (k + i)) hits
  = imap (fun i e => spec_entry (S (k + i)) e.1 e.2) evidence.
Proof.
  intros H. apply mapM_Some_1 in H. revert k.
  induction H as [|r e hits ev Hr _ IH]; intros k; [reflexivity|].
  cbn [imap]. f_equal.
  - destruct (filename_of (er_metadata r)) as [f|] eqn:Ef; [|discriminate].
    cbn in Hr. injection Hr as <-. rewrite (evidence_entry _ _ f Ef).
    cbn [fst snd]. f_equal. lia.
  - specialize (IH (S k)).
    erewrite imap_ext; [erewrite (imap_ext _ _ ev)|]; [exact IH | |];
      intros i x _; cbn; do 2 f_equal; lia.
Qed.

Lemma prompt_of_spec hits evidence question :
  evidence_of hits = Some evidence ->
  prompt_of hits question = spec_prompt evidence question.
Proof.
  intros H. unfold prompt_of, spec_prompt, spec_context, build_prompt.
  pose proof (evidence_entries hits evidence 0 H) as He. cbn in He.
  replace (imap entry_of hits)
    with (imap (fun i e => spec_entry (S i) e.1 e.2) evidence)
    by (rewrite <- He; reflexivity).
  by rewrite !append_assoc.
Qed.

Lemma source_of_filename r rest f :
  filename_of (er_metadata r) = Some f -> source_of (r :: rest) = Py.VStr f.
Proof.
  unfold filename_of, source_of. cbn.
  destruct (er_metadata r) as [md|]; [|discriminate]. cbn.
  destruct (md !! "filename") as [[f'|]|]; try discriminate.
  by intros [= ->].
Qed.

(** C2. When the gate is passed, every hit carries metadata and the model
    answers, the source that [get_answer_with_source] returns is the filename
    in the metadata of the first hit, whatever the other hits are. *)
Theorem C2_source_attribution c question w recs qv m md0 mds f text :
  chroma w !! c = Some recs ->
  default_embed question = Ok qv ->
  let results := query_results qv recs 3 in
  Py.min (qr_distances results) = Some m ->
  PrimFloat.ltb threshold m = false ->
  Forall has_metadata (hits_of qv recs 3) ->
  qr_metadatas results = Some (md0 :: mds) ->
  filename_of md0 = Some f ->
  generation_model (prompt_of (hits_of qv recs 3) question) = Ok text ->
  get_answer_with_source c question w
  = (Ok (Py.strip text, Py.VStr f), log_prompt (prompt_of (hits_of qv recs 3) question) w).
Proof.
  intros Hc Hq results Hm Hgate Hmd Hmds Hf Hgen.
  destruct (get_answer_with_source_run c question w recs qv Hc Hq) as (_ & _ & Hnear).
  rewrite (Hnear m Hm Hgate Hmd), Hgen.
  unfold results, query_results in Hmds. cbn [qr_metadatas] in Hmds.
  fold (hits_of qv recs 3) in Hmds.
  destruct (hits_of qv recs 3) as [|r rest]; [discriminate|].
  injection Hmds as <- _. rewrite (source_of_filename r rest f Hf). reflexivity.
Qed.

(** C3. When the gate is passed and every hit carries a filename, the prompt
    handed to the model is the one the specification words: the context
    block with an entry per hit in rank order, the question, the instruction
    block and the answer cue. The answer is the text of the model without
    its leading and trailing whitespace, and a failure of the model is the
    failure of the call. *)
Theorem C3_prompt_construction c question w recs qv m evidence :
  chroma w !! c = Some recs ->
  default_embed question = Ok qv ->
  Py.min (qr_distances (query_results qv recs 3)) = Some m ->
  PrimFloat.ltb threshold m = false ->
  evidence_of (hits_of qv recs 3) = Some evidence ->
  let prompt := spec_prompt evidence question in
  let run := get_answer_with_source c question w in
  prompts run.2 = prompts w ++ [prompt]
  /\ (forall text, generation_model prompt = Ok text ->
        exists source, run.1 = Ok (Py.strip text, source)
          /\ exists l r, text = l +:+ Py.strip text +:+ r
               /\ all_space l = true /\ all_space r = true /\ trimmed (Py.strip text))
  /\ (forall e, generation_model prompt = Raise e -> run.1 = Raise e).
Proof.
  intros Hc Hq Hm Hgate Hev prompt run.
  destruct (get_answer_with_source_run c question w recs qv Hc Hq) as (_ & _ & Hnear).
  pose proof (Hnear m Hm Hgate (evidence_has_metadata _ _ Hev)) as Hrun.
  rewrite (prompt_of_spec _ _ question Hev) in Hrun. fold prompt in Hrun.
  unfold run. rewrite Hrun. split; [reflexivity|]. split.
  - intros text Hgen. rewrite Hgen. eexists. split; [reflexivity|]. apply strip_spec.
  - intros e Hgen. rewrite Hgen. reflexivity.
Qed.

(** ** Reset *)

Lemma set_chroma_set_chroma f g w :
  set_chroma f (set_chroma g w) = set_chroma (f ∘ g) w.
Proof. reflexivity. Qed.

Lemma reset_collection_run name w :
  reset_collection name w = (Ok name, set_chroma (insert name []) w).
Proof.
  unfold reset_collection, delete_collection, create_collection. run.
  destruct (chroma w !! name) as [recs|] eqn:E; run.
  - cbn. rewrite lookup_delete_eq. cbn. f_equal. unfold set_chroma. cbn.
    f_equal. apply insert_delete_eq.
  - rewrite E. reflexivity.
Qed.

Lemma collection_query_empty name q k w :
  chroma w !! name = Some [] ->
  collection_query name q k w
  = (match default_embed q with Ok _ => Ok empty_results | Raise e => Raise e end, w).
Proof.
  intros H. unfold collection_query. run. rewrite H. run.
  destruct (default_embed q); [|reflexivity].
  unfold query_results, ranked. cbn. by rewrite take_nil.
Qed.

(** C6. [reset_collection] succeeds on every world, whether or not the
    collection exists, and returns the collection of that name, empty, all
    other collections and the rest of the world being as before. Resetting a
    world where the collection is absent gives the same result and the same
    world as resetting one where it is present, and a query on the fresh
    collection returns no record. *)
Theorem C6_reset_idempotence :
  forall name w,
    let w' := set_chroma (insert name []) w in
    reset_collection name w = (Ok name, w')
    /\ chroma w' !! name = Some []
    /\ (forall other, other <> name -> chroma w' !! other = chroma w !! other)
    /\ reset_collection name (set_chroma (delete name) w) = (Ok name, w')
    /\ reset_collection name w' = (Ok name, w')
    /\ (forall q k, (collection_query name q k w').1
                    = match default_embed q with Ok _ => Ok empty_results | Raise e => Raise e end).
Proof.
  intros name w w'. split; [apply reset_collection_run|].
  split; [apply lookup_insert_eq|].
  split; [intros other Hne; by apply lookup_insert_ne|].
  split; [|split].
  - rewrite reset_collection_run. f_equal. unfold w', set_chroma. cbn.
    f_equal. apply insert_delete_eq.
  - rewrite reset_collection_run. f_equal. unfold w', set_chroma. cbn.
    f_equal. apply insert_insert_eq.
  - intros q k. rewrite collection_query_empty; [reflexivity|]. apply lookup_insert_eq.
Qed.

(** ** What computations keep *)

Lemma preserves_ret {A : Type} P (a : A) : preserves P (mret a).
Proof. intros w H. exact H. Qed.

Lemma preserves_bind {A B : Type} P (c : M A) (k : A -> M B) :
  preserves P c -> (forall a, preserves P (k a)) -> preserves P (c ≫= k).
Proof.
  intros Hc Hk w H. specialize (Hc w H). unfold mbind, M_bind.
  destruct (c w) as [[a|e] w1]; [apply Hk|]; exact Hc.
Qed.

Lemma preserves_lift {A : Type} P (r : result A) : preserves P (lift r).
Proof. intros w H. exact H. Qed.

Lemma preserves_raise {A : Type} P k m : preserves P (raise (A:=A) k m).
Proof. intros w H. exact H. Qed.

Lemma preserves_get_world P : preserves P get_world.
Proof. intros w H. exact H. Qed.

Lemma preserves_modify P f : (forall w, P w -> P (f w)) -> preserves P (modify f).
Proof. intros Hf w H. apply Hf, H. Qed.

Lemma preserves_try_except {A : Type} P (c : M A) h :
  preserves P c -> (forall e, preserves P (h e)) -> preserves P (try_except c h).
Proof.
  intros Hc Hh w H. specialize (Hc w H). unfold try_except.
  destruct (c w) as [[a|e] w1]; [|apply Hh]; exact Hc.
Qed.

Lemma preserves_for_each {A : Type} P (l : list A) body :
  (forall x, preserves P (body x)) -> preserves P (for_each l body).
Proof.
  intros Hb. induction l as [|x l IH]; [apply preserves_ret|].
  cbn [for_each]. apply preserves_bind; [apply Hb | intros _; exact IH].
Qed.

Lemma preserves_foldM {A B : Type} P (body : B -> A -> M B) b (l : list A) :
  (forall b x, preserves P (body b x)) -> preserves P (foldM body b l).
Proof.
  intros Hb. revert b. induction l as [|x l IH]; intros b; [apply preserves_ret|].
  cbn [foldM]. apply preserves_bind; [apply Hb | intros b'; apply IH].
Qed.

(** Reading the world and going on is kept when going on is. *)
Lemma preserves_with_world {A : Type} P (k : world -> M A) :
  (forall w0, preserves P (k w0)) -> preserves P (get_world ≫= k).
Proof. intros Hk. apply preserves_bind; [apply preserves_get_world | exact Hk]. Qed.

Ltac keep_step :=
  lazymatch goal with
  | |- preserves _ (mret _) => apply preserves_ret
  | |- preserves _ (raise _ _) => apply preserves_raise
  | |- preserves _ (lift _) => apply preserves_lift
  | |- preserves _ get_world => apply preserves_get_world
  | |- preserves _ (mbind _ get_world) => apply preserves_with_world; intros ?
  | |- preserves _ (mbind _ _) => apply preserves_bind; [|intros ?]
  | |- preserves _ (try_except _ _) => apply preserves_try_except; [|intros ?]
  | |- preserves _ (for_each _ _) => apply preserves_for_each; intros ?
  | |- preserves _ (foldM _ _ _) => apply preserves_foldM; intros ? ?
  end.

(** ** Identifiers *)

Lemma first_duplicate_None seen new :
  first_duplicate seen new = None ->
  NoDup new /\ (forall i, i ∈ new -> i ∉ seen).
Proof.
  revert seen. induction new as [|i new IH]; intros seen H.
  - split; [constructor | intros i Hi; by apply elem_of_nil in Hi].
  - cbn in H. case_bool_decide as Hi; [discriminate|].
    destruct (IH _ H) as [Hnd Hfresh]. split.
    + constructor; [|exact Hnd]. intros Hin. apply (Hfresh i Hin). by left.
    + intros j Hj. apply elem_of_cons in Hj as [->|Hj]; [exact Hi|].
      intros Hs. apply (Hfresh j Hj). by right.
Qed.

Lemma first_duplicate_Some_head seen i new :
  i ∈ seen -> first_duplicate seen (i :: new) = Some i.
Proof. intros H. cbn. by rewrite bool_decide_true. Qed.

Lemma collection_add_cases c new w :
  (exists e, collection_add c new w = (Raise e, w))
  \/ (exists recs, chroma w !! c = Some recs
        /\ first_duplicate (er_id <$> recs) (er_id <$> new) = None
        /\ collection_add c new w = (Ok tt, set_chroma (insert c (recs ++ new)) w)).
Proof.
  unfold collection_add. run. destruct (chroma w !! c) as [recs|]; [|left; eauto].
  destruct (first_duplicate _ _) eqn:E; [left; eauto|]. right. eauto.
Qed.

Lemma per_collection_same_chroma Q w w' :
  chroma w' = chroma w -> per_collection Q w -> per_collection Q w'.
Proof. intros E H c recs Hc. rewrite E in Hc. exact (H c recs Hc). Qed.

Lemma per_collection_chroma_only Q : chroma_only (per_collection Q).
Proof. intros w w' E. by apply per_collection_same_chroma. Qed.

Lemma preserves_modify_frame P f :
  chroma_only P -> (forall w, chroma (f w) = chroma w) -> preserves P (modify f).
Proof. intros HP Hf. apply preserves_modify. intros w. apply HP, Hf. Qed.

Lemma per_collection_insert Q c recs w :
  Q recs -> per_collection Q w -> per_collection Q (set_chroma (insert c recs) w).
Proof.
  intros Hq H c' recs' Hc'. cbn in Hc'. destruct (decide (c = c')) as [<-|Hne].
  - rewrite lookup_insert_eq in Hc'. by injection Hc' as <-.
  - rewrite lookup_insert_ne in Hc' by exact Hne. exact (H c' recs' Hc').
Qed.

Lemma per_collection_delete Q c w :
  per_collection Q w -> per_collection Q (set_chroma (delete c) w).
Proof.
  intros H c' recs' Hc'. cbn in Hc'. apply lookup_delete_Some in Hc' as [_ Hc'].
  exact (H c' recs' Hc').
Qed.

Lemma get_collection_keeps P name : preserves P (get_collection name).
Proof.
  unfold get_collection. apply preserves_with_world. intros w0.
  destruct (chroma w0 !! name); keep_step.
Qed.

Lemma create_collection_keeps Q name :
  Q [] -> preserves (per_collection Q) (create_collection name).
Proof.
  intros Hq. unfold create_collection. apply preserves_with_world. intros w0.
  destruct (chroma w0 !! name); repeat keep_step.
  apply preserves_modify. intros w. by apply per_collection_insert.
Qed.

Lemma delete_collection_keeps Q name :
  preserves (per_collection Q) (delete_collection name).
Proof.
  unfold delete_collection. apply preserves_with_world. intros w0.
  destruct (chroma w0 !! name); repeat keep_step.
  apply preserves_modify. intros w. by apply per_collection_delete.
Qed.

Lemma reset_collection_keeps Q name :
  Q [] -> preserves (per_collection Q) (reset_collection name).
Proof.
  intros Hq. unfold reset_collection. repeat keep_step.
  - apply delete_collection_keeps.
  - by apply create_collection_keeps.
Qed.

Lemma collection_add_ids_unique c new : preserves ids_unique (collection_add c new).
Proof.
  intros w H. destruct (collection_add_cases c new w) as [[e ->]|(recs & Hc & Hd & ->)]; [exact H|].
  apply per_collection_insert; [|exact H].
  rewrite fmap_app. apply first_duplicate_None in Hd as [Hnd Hfresh].
  apply NoDup_app. split; [apply (H c recs Hc)|]. split; [|exact Hnd].
  intros i Hi Hi'. exact (Hfresh i Hi' Hi).
Qed.

Lemma collection_add_all_have_filename c new :
  Forall has_filename new -> preserves all_have_filename (collection_add c new).
Proof.
  intros Hnew w H. destruct (collection_add_cases c new w) as [[e ->]|(recs & Hc & Hd & ->)]; [exact H|].
  apply per_collection_insert; [|exact H].
  apply Forall_app. split; [apply (H c recs Hc) | exact Hnew].
Qed.

Lemma chunk_metadata_filename filename i chunk :
  filename_of (Some (chunk_metadata filename i chunk)) = Some filename.
Proof. unfold filename_of, chunk_metadata. by rewrite lookup_insert_eq. Qed.

Lemma cached_collection_keeps Q name :
  Q [] -> preserves (per_collection Q) (cached_collection name).
Proof.
  intros Hq. unfold cached_collection. cbn zeta. keep_step. keep_step.
  { destruct (fn_collections _); [keep_step|].
    by apply preserves_modify_frame; [apply per_collection_chroma_only|]. }
  keep_step. destruct (_ !! name); repeat keep_step.
  - apply get_collection_keeps.
  - by apply create_collection_keeps.
  - by apply preserves_modify_frame; [apply per_collection_chroma_only|].
Qed.

Lemma add_text_to_chromadb_keeps Q text filename name :
  Q [] ->
  (forall c i chunk e,
      preserves (per_collection Q)
        (collection_add c [EmbeddingRecord (chunk_id filename i) e chunk
                                           (Some (chunk_metadata filename i chunk))])) ->
  preserves (per_collection Q) (add_text_to_chromadb text filename name).
Proof.
  intros Hq Hadd. unfold add_text_to_chromadb. cbn zeta. keep_step.
  { by apply cached_collection_keeps. }
  repeat keep_step. unfold add_chunk. repeat keep_step. apply Hadd.
Qed.

Lemma add_text_to_chromadb_ids_unique text filename name :
  preserves ids_unique (add_text_to_chromadb text filename name).
Proof.
  apply add_text_to_chromadb_keeps; [constructor|].
  intros. apply collection_add_ids_unique.
Qed.

Lemma add_text_to_chromadb_all_have_filename text filename name :
  preserves all_have_filename (add_text_to_chromadb text filename name).
Proof.
  apply add_text_to_chromadb_keeps; [constructor|].
  intros. apply collection_add_all_have_filename.
  constructor; [|constructor]. unfold has_filename. cbn [er_metadata].
  rewrite chunk_metadata_filename. eauto.
Qed.

(** The identifier determines the filename and the index. *)

Lemma pretty_N_go_digits x s :
  all_digits s = true -> all_digits (pretty_N_go x s) = true.
Proof.
  revert s. induction (N.lt_wf_0 x) as [x _ IH]; intros s Hs.
  assert (x = 0 \/ 0 < x)%N as [->|Hx] by lia.
  - by rewrite pretty_N_go_0.
  - rewrite pretty_N_go_step by done. apply IH; [by apply N.div_lt|].
    cbn [all_digits]. rewrite Hs, andb_true_r. apply bool_decide_eq_true.
    unfold pretty_N_char. repeat case_match; cbn; eauto.
Qed.

Lemma str_of_nat_digits n : all_digits (Py.str_of_nat n) = true.
Proof.
  unfold Py.str_of_nat, pretty, pretty_nat, pretty, pretty_N.
  case_decide; [reflexivity|]. by apply pretty_N_go_digits.
Qed.

Lemma rev_chars_append a b : rev_chars (a +:+ b) = rev_chars b ++ rev_chars a.
Proof.
  induction a as [|c a IH]; [by rewrite app_nil_r|].
  rewrite append_cons. cbn [rev_chars]. by rewrite IH, app_assoc.
Qed.

Lemma rev_chars_inj a b : rev_chars a = rev_chars b -> a = b.
Proof.
  revert b. induction a as [|c a IH]; intros [|d b] H; cbn in H.
  - reflexivity.
  - by destruct (rev_chars b).
  - by destruct (rev_chars a).
  - apply app_inj_tail in H as [H ->]. f_equal. by apply IH.
Qed.

Lemma rev_chars_digits s :
  all_digits s = true -> Forall (fun c => is_Some (Ascii.is_nat c)) (rev_chars s).
Proof.
  induction s as [|c s IH]; [constructor|]. cbn. intros [Hc Hs]%andb_true_iff.
  apply Forall_app. split; [by apply IH|].
  constructor; [|constructor]. by apply bool_decide_eq_true in Hc.
Qed.

Lemma digits_then_underscore (d1 d2 t1 t2 : list ascii) :
  Forall (fun c => is_Some (Ascii.is_nat c)) d1 ->
  Forall (fun c => is_Some (Ascii.is_nat c)) d2 ->
  d1 ++ "_"%char :: t1 = d2 ++ "_"%char :: t2 ->
  d1 = d2 /\ t1 = t2.
Proof.
  intros H1. revert d2. induction H1 as [|c d1 Hc _ IH]; intros d2 H2 E.
  - destruct H2 as [|c' d2 Hc' _]; cbn in E.
    + by injection E as <-.
    + injection E as <- _. by destruct Hc'.
  - destruct H2 as [|c' d2 Hc' H2]; cbn in E.
    + injection E as -> _. by destruct Hc.
    + injection E as <- E. destruct (IH d2 H2 E) as [-> ->]. done.
Qed.

Lemma chunk_id_inj f1 i1 f2 i2 :
  chunk_id f1 i1 = chunk_id f2 i2 -> f1 = f2 /\ i1 = i2.
Proof.
  unfold chunk_id. intros E. apply (f_equal rev_chars) in E.
  rewrite !rev_chars_append in E. cbn [rev_chars app] in E.
  rewrite <- !app_assoc in E. cbn [app] in E.
  apply digits_then_underscore in E as [Ed Et];
    [|apply rev_chars_digits, str_of_nat_digits..].
  split.
  - injection Et as Et. by apply rev_chars_inj.
  - apply rev_chars_inj in Ed. by apply (inj pretty) in Ed.
Qed.

Lemma chunk_ids_NoDup filename k n :
  NoDup (chunk_id filename <$> seq k n).
Proof.
  apply NoDup_fmap_2; [|apply NoDup_seq].
  intros i j E. by apply chunk_id_inj in E as [_ ?].
Qed.

(** ** Adding the chunks of a file *)

Lemma add_chunk_run c filename i chunk w :
  add_chunk c filename (i, chunk) w
  = match encode chunk with
    | Ok e => collection_add c [chunk_record filename i chunk e] w
    | Raise e => (Raise e, w)
    end.
Proof. unfold add_chunk. run. cbn. by destruct (encode chunk). Qed.

Lemma add_chunks_ok c filename chunks k w w' recs :
  chroma w !! c = Some recs ->
  for_each (zip (seq k (length chunks)) chunks) (add_chunk c filename) w = (Ok tt, w') ->
  exists news,
    chroma w' = <[c := recs ++ news]> (chroma w)
    /\ fn_collections w' = fn_collections w
    /\ er_id <$> news = chunk_id filename <$> seq k (length chunks)
    /\ er_document <$> news = chunks
    /\ Forall well_labelled news.
Proof.
  revert k w recs. induction chunks as [|chunk chunks IH]; intros k w recs Hc Hrun.
  - cbn in Hrun. injection Hrun as <-. exists []. rewrite app_nil_r.
    rewrite insert_id by exact Hc. repeat split. constructor.
  - cbn [length seq zip zip_with for_each] in Hrun. unfold mbind, M_bind in Hrun.
    rewrite add_chunk_run in Hrun. destruct (encode chunk) as [e|e]; [|discriminate].
    destruct (collection_add_cases c [chunk_record filename k chunk e] w)
      as [[x Hx]|(recs' & Hc' & _ & Hadd)]; [by rewrite Hx in Hrun|].
    rewrite Hadd in Hrun. rewrite Hc in Hc'. injection Hc' as <-.
    apply (IH (S k) _ (recs ++ [chunk_record filename k chunk e])) in Hrun
      as (news & Hch & Hfn & Hids & Hdocs & Hlab); [|cbn; apply lookup_insert_eq].
    exists (chunk_record filename k chunk e :: news).
    cbn in Hch. rewrite insert_insert_eq, <- app_assoc in Hch.
    split; [exact Hch|]. split; [exact Hfn|].
    split; [cbn [length seq]; by rewrite !fmap_cons, <- Hids|].
    split; [by rewrite fmap_cons, Hdocs|].
    constructor; [|exact Hlab].
    exists filename, k, (chunk_metadata filename k chunk). repeat split.
Qed.

Lemma add_chunks_started c filename chunk chunks k w w' :
  for_each (zip (seq k (S (length chunks))) (chunk :: chunks)) (add_chunk c filename) w
  = (Ok tt, w') ->
  is_Some (chroma w !! c).
Proof.
  cbn [seq zip zip_with for_each]. unfold mbind, M_bind. rewrite add_chunk_run.
  destruct (encode chunk) as [e|e]; [|discriminate].
  destruct (collection_add_cases c [chunk_record filename k chunk e] w)
    as [[x Hx]|(recs' & Hc' & _ & Hadd)]; [by rewrite Hx | eauto].
Qed.

Lemma add_chunks_duplicate c filename chunk chunks k w recs e :
  chroma w !! c = Some recs ->
  chunk_id filename k ∈ er_id <$> recs ->
  encode chunk = Ok e ->
  for_each (zip (seq k (S (length chunks))) (chunk :: chunks)) (add_chunk c filename) w
  = (Raise (Py.Exc Py.DuplicateIDError (chunk_id filename k)), w).
Proof.
  intros Hc Hin He. cbn [seq zip zip_with for_each]. unfold mbind, M_bind.
  rewrite add_chunk_run, He. unfold collection_add. run. rewrite Hc.
  cbn [fmap list_fmap chunk_record er_id].
  rewrite first_duplicate_Some_head by exact Hin. reflexivity.
Qed.

Lemma cached_collection_hit name w cache c :
  fn_collections w = Some cache -> cache !! name = Some c ->
  cached_collection name w = (Ok c, w).
Proof.
  intros Hf Hc. unfold cached_collection. run. rewrite Hf. run. rewrite Hf. cbn.
  rewrite Hc. reflexivity.
Qed.

Lemma get_or_create_run name w :
  try_except (get_collection name) (fun _ => create_collection name) w
  = (Ok name, match chroma w !! name with
              | Some _ => w
              | None => set_chroma (insert name []) w
              end).
Proof.
  unfold try_except, get_collection, create_collection. run.
  destruct (chroma w !! name) eqn:E; run; [reflexivity|]. by rewrite E.
Qed.

Lemma cached_collection_run name w :
  exists c w0 cache,
    cached_collection name w = (Ok c, w0)
    /\ fn_collections w0 = Some cache /\ cache !! name = Some c
    /\ (forall c' recs, chroma w !! c' = Some recs -> chroma w0 !! c' = Some recs)
    /\ (forall c' recs, chroma w0 !! c' = Some recs -> chroma w !! c' = Some recs \/ recs = []).
Proof.
  assert (Hstore : forall (w1 : world), chroma w1 = chroma w ->
    let w2 := match chroma w1 !! name with
              | Some _ => w1
              | None => set_chroma (insert name []) w1
              end in
    (forall c' recs, chroma w !! c' = Some recs -> chroma w2 !! c' = Some recs)
    /\ (forall c' recs, chroma w2 !! c' = Some recs -> chroma w !! c' = Some recs \/ recs = [])
    /\ fn_collections w2 = fn_collections w1).
  { intros w1 E. cbn zeta. destruct (chroma w1 !! name) eqn:En.
    - rewrite E. repeat split; eauto.
    - cbn. rewrite E in *. repeat split.
      + intros c' recs H. rewrite lookup_insert_ne; [exact H|]. congruence.
      + intros c' recs H. destruct (decide (name = c')) as [<-|Hne].
        * rewrite lookup_insert_eq in H. injection H as <-. by right.
        * rewrite lookup_insert_ne in H by exact Hne. by left. }
  unfold cached_collection.
  destruct (fn_collections w) as [cache|] eqn:Ef.
  - destruct (cache !! name) as [c|] eqn:Ec.
    + exists c, w, cache. split; [|repeat split; eauto].
      run. rewrite Ef. cbn. run. rewrite Ef. cbn. by rewrite Ec.
    + destruct (Hstore w eq_refl) as (H1 & H2 & H3).
      eexists _, _, _. split.
      { run. rewrite Ef. cbn. run. rewrite Ef. cbn. rewrite Ec.
        pose proof (get_or_create_run name w) as Hg. unfold try_except in Hg.
        rewrite Hg. reflexivity. }
      split; [reflexivity|]. split; [apply lookup_insert_eq|]. split; assumption.
  - destruct (Hstore (set_fn_collections (Some ∅) w) eq_refl) as (H1 & H2 & H3).
    eexists _, _, _. split.
    { run. rewrite Ef. cbn. run. cbn. rewrite lookup_empty.
      pose proof (get_or_create_run name (set_fn_collections (Some ∅) w)) as Hg.
      unfold try_except in Hg. rewrite Hg. reflexivity. }
    split; [reflexivity|]. split; [apply lookup_insert_eq|]. split; assumption.
Qed.

(** What a call of [add_text_to_chromadb] that returns has done, for a text
    with at least one chunk. *)
Lemma add_text_to_chromadb_ok text filename name w c w' :
  add_text_to_chromadb text filename name w = (Ok c, w') ->
  split_text the_splitter text <> [] ->
  exists cache recs news,
    fn_collections w' = Some cache /\ cache !! name = Some c
    /\ chroma w' !! c = Some (recs ++ news)
    /\ (chroma w !! c = Some recs \/ recs = [])
    /\ er_id <$> news = chunk_id filename <$> seq 0 (length (split_text the_splitter text))
    /\ er_document <$> news = split_text the_splitter text
    /\ Forall well_labelled news.
Proof.
  unfold add_text_to_chromadb. cbn zeta. intros Hrun Hne.
  destruct (cached_collection_run name w) as (c0 & w0 & cache & Hcc & Hf & Hc & Hkeep & Hnew).
  unfold mbind at 1, M_bind at 1 in Hrun. rewrite Hcc in Hrun.
  unfold mbind, M_bind, enumerate in Hrun.
  destruct (for_each _ _ w0) as [[[]|e] w1] eqn:Hloop; [|discriminate].
  injection Hrun as <- <-.
  destruct (split_text the_splitter text) as [|chunk chunks] eqn:Es; [congruence|].
  destruct (add_chunks_started _ _ _ _ _ _ _ Hloop) as [recs Hrecs].
  change (S (length chunks)) with (length (chunk :: chunks)) in Hloop.
  apply (add_chunks_ok _ _ _ _ _ _ recs Hrecs) in Hloop as (news & Hch & Hfn & Hids & Hdocs & Hlab).
  exists cache, recs, news. rewrite Hfn, Hch, lookup_insert_eq.
  repeat split; try assumption. apply Hnew, Hrecs.
Qed.

(** ** What the handlers keep *)

Lemma collection_query_keeps P c q k : preserves P (collection_query c q k).
Proof.
  unfold collection_query. keep_step. destruct (chroma _ !! c); repeat keep_step.
Qed.

Lemma call_model_keeps P prompt : chroma_only P -> preserves P (call_model prompt).
Proof. intros HP w H. by apply (HP w). Qed.

Lemma get_answer_with_source_keeps P c q :
  (forall p w, P w -> P (log_prompt p w)) -> preserves P (get_answer_with_source c q).
Proof.
  intros HP. unfold get_answer_with_source. cbn zeta. keep_step.
  { apply collection_query_keeps. }
  keep_step; [keep_step|]. destruct a0; repeat keep_step.
  intros w H. by apply HP.
Qed.

Lemma add_to_search_history_keeps P q a s now :
  chroma_only P -> preserves P (add_to_search_history q a s now).
Proof. intros HP. unfold add_to_search_history. by apply preserves_modify_frame. Qed.

Lemma search_clicked_keeps P q now : chroma_only P -> preserves P (search_clicked q now).
Proof.
  intros HP. unfold search_clicked. keep_step.
  destruct (collection _); [destruct (Py.truthy _)|];
    repeat keep_step;
    first [ apply get_answer_with_source_keeps; intros pr wr Hr; by apply (HP wr)
          | by apply add_to_search_history_keeps
          | by apply preserves_modify_frame ].
Qed.

Lemma delete_clicked_keeps P i : chroma_only P -> preserves P (delete_clicked i).
Proof.
  intros HP. unfold delete_clicked. keep_step.
  destruct (_ !! i); repeat keep_step; by apply preserves_modify_frame.
Qed.

Lemma process_file_keeps Q b file :
  Q [] ->
  (forall filename c i chunk e,
      preserves (per_collection Q) (collection_add c [chunk_record filename i chunk e])) ->
  preserves (per_collection Q) (process_file b file).
Proof.
  intros Hq Hadd. unfold process_file. cbn zeta. repeat keep_step.
  apply add_text_to_chromadb_keeps; [exact Hq|]. intros. apply Hadd.
Qed.

Lemma process_clicked_keeps Q files :
  Q [] ->
  (forall filename c i chunk e,
      preserves (per_collection Q) (collection_add c [chunk_record filename i chunk e])) ->
  preserves (per_collection Q) (process_clicked files).
Proof.
  intros Hq Hadd. pose proof (per_collection_chroma_only Q) as HP.
  unfold process_clicked. destruct files as [|f files]; [by apply preserves_modify_frame|].
  cbn zeta. keep_step.
  { keep_step. by apply preserves_modify_frame. }
  destruct (filter _ _); [keep_step|]. keep_step; [by apply reset_collection_keeps|].
  keep_step; [keep_step; by apply process_file_keeps|].
  keep_step; [by apply preserves_modify_frame|].
  destruct (processed_files _); repeat keep_step; by apply preserves_modify_frame.
Qed.

Lemma mapR_length {A B : Type} (f : A -> result B) l ys :
  mapR f l = Ok ys -> length ys = length l.
Proof.
  revert ys. induction l as [|x l IH]; intros ys H; cbn in H.
  - by injection H as <-.
  - unfold mbind, result_bind in H. destruct (f x); [|discriminate].
    destruct (mapR f l); [|discriminate]. injection H as <-. cbn. f_equal. by apply IH.
Qed.

Lemma setup_documents_ids_unique : preserves ids_unique setup_documents.
Proof.
  unfold setup_documents. cbn zeta. keep_step.
  { keep_step; [apply get_collection_keeps|]. apply create_collection_keeps. constructor. }
  case_bool_decide; repeat keep_step. apply collection_add_ids_unique.
Qed.

(** ** Adding a file twice *)

Lemma add_chunks_first_encoded c filename chunk chunks k w w' :
  for_each (zip (seq k (S (length chunks))) (chunk :: chunks)) (add_chunk c filename) w
  = (Ok tt, w') ->
  exists e, encode chunk = Ok e.
Proof.
  cbn [seq zip zip_with for_each]. unfold mbind, M_bind. rewrite add_chunk_run.
  destruct (encode chunk) as [e|e]; [eauto | discriminate].
Qed.

Lemma add_text_to_chromadb_first_encoded text filename name w c w' chunk chunks :
  add_text_to_chromadb text filename name w = (Ok c, w') ->
  split_text the_splitter text = chunk :: chunks ->
  exists e, encode chunk = Ok e.
Proof.
  unfold add_text_to_chromadb. cbn zeta. intros Hrun Es.
  destruct (cached_collection_run name w) as (c0 & w0 & cache & Hcc & _).
  unfold mbind at 1, M_bind at 1 in Hrun. rewrite Hcc in Hrun.
  unfold mbind, M_bind, enumerate in Hrun. rewrite Es in Hrun. cbn [length] in Hrun.
  destruct (for_each _ _ w0) as [[[]|e] w1] eqn:Hloop; [|discriminate].
  by apply add_chunks_first_encoded in Hloop.
Qed.

Lemma add_text_to_chromadb_again text text' filename name w c w1 chunk chunks e :
  add_text_to_chromadb text filename name w = (Ok c, w1) ->
  split_text the_splitter text <> [] ->
  split_text the_splitter text' = chunk :: chunks ->
  encode chunk = Ok e ->
  add_text_to_chromadb text' filename name w1
  = (Raise (Py.Exc Py.DuplicateIDError (chunk_id filename 0)), w1).
Proof.
  intros Hrun Hne Es He.
  destruct (add_text_to_chromadb_ok _ _ _ _ _ _ Hrun Hne)
    as (cache & recs & news & Hf & Hc & Hch & _ & Hids & _).
  unfold add_text_to_chromadb. cbn zeta. unfold mbind at 1, M_bind at 1.
  rewrite (cached_collection_hit name w1 cache c Hf Hc).
  unfold mbind, M_bind, enumerate. rewrite Es. cbn [length].
  rewrite (add_chunks_duplicate c filename chunk chunks 0 w1 (recs ++ news) e Hch); [reflexivity| |exact He].
  rewrite fmap_app, Hids. apply elem_of_app. right.
  destruct (split_text the_splitter text); [congruence|]. cbn. by left.
Qed.

Lemma setup_documents_again w c w1 :
  setup_documents w = (Ok c, w1) ->
  setup_documents w1 = (Raise (Py.Exc Py.DuplicateIDError "doc1"), w1).
Proof.
  unfold setup_documents. cbn zeta. intros Hrun.
  unfold mbind at 1, M_bind at 1 in Hrun. rewrite get_or_create_run in Hrun.
  case_bool_decide as Hlen; [|discriminate].
  unfold mbind at 1, M_bind at 1, lift in Hrun.
  destruct (mapR default_embed my_documents) as [embeddings|] eqn:Hemb; [|discriminate].
  pose proof (mapR_length _ _ _ Hemb) as Hlen'.
  set (w0 := match chroma w !! "docs" with Some _ => w | None => _ end) in Hrun.
  set (news := _ <$> zip _ embeddings) in *.
  unfold mbind, M_bind in Hrun.
  destruct (collection_add_cases "docs" news w0) as [[x Hx]|(recs & Hc & _ & Hadd)];
    [by rewrite Hx in Hrun|].
  rewrite Hadd in Hrun. injection Hrun as <- <-.
  unfold mbind at 1, M_bind at 1. rewrite get_or_create_run.
  cbn [chroma set_chroma]. rewrite lookup_insert_eq.
  unfold mbind at 1, M_bind at 1, lift. rewrite ?Hemb. fold news.
  unfold mbind, M_bind, collection_add. run. cbn [chroma set_chroma].
  rewrite lookup_insert_eq.
  assert (Hhead : exists r rest, news = r :: rest /\ er_id r = "doc1").
  { unfold news. destruct my_documents as [|d1 ds]; [discriminate|].
    destruct embeddings as [|e1 es]; [discriminate|]. cbn. eauto. }
  destruct Hhead as (r & rest & -> & Hr).
  rewrite fmap_cons, Hr, first_duplicate_Some_head; [reflexivity|].
  rewrite fmap_app, fmap_cons, Hr. apply elem_of_app. right. by left.
Qed.

(** C5. A call of [add_text_to_chromadb] that returns has appended one record
    per chunk, the record of chunk [i] under the identifier
    [{filename}_chunk_{i}], which determines the filename and the index.
    Identifiers stay unique within every collection under every operation
    of the two apps, whether it returns or raises. A second call for the same
    filename on the same collection raises the duplicate-identifier error at
    its first chunk and stores nothing, and so does a second call of
    [setup_documents] with its fixed identifiers. *)
Theorem C5_id_uniqueness :
  (forall text filename name w c w',
      add_text_to_chromadb text filename name w = (Ok c, w') ->
      split_text the_splitter text <> [] ->
      exists recs news,
        chroma w' !! c = Some (recs ++ news)
        /\ (chroma w !! c = Some recs \/ recs = [])
        /\ er_id <$> news = chunk_id filename <$> seq 0 (length (split_text the_splitter text))
        /\ er_document <$> news = split_text the_splitter text
        /\ Forall well_labelled news)
  /\ (forall f1 i1 f2 i2, chunk_id f1 i1 = chunk_id f2 i2 -> f1 = f2 /\ i1 = i2)
  /\ (ids_unique initial_world
      /\ (forall text filename name, preserves ids_unique (add_text_to_chromadb text filename name))
      /\ (forall name, preserves ids_unique (reset_collection name))
      /\ (forall files, preserves ids_unique (process_clicked files))
      /\ (forall q now, preserves ids_unique (search_clicked q now))
      /\ (forall i, preserves ids_unique (delete_clicked i))
      /\ preserves ids_unique setup_documents)
  /\ (forall text filename name w c w1,
        add_text_to_chromadb text filename name w = (Ok c, w1) ->
        split_text the_splitter text <> [] ->
        add_text_to_chromadb text filename name w1
        = (Raise (Py.Exc Py.DuplicateIDError (chunk_id filename 0)), w1))
  /\ (forall text text' filename name w c w1 chunk chunks e,
        add_text_to_chromadb text filename name w = (Ok c, w1) ->
        split_text the_splitter text <> [] ->
        split_text the_splitter text' = chunk :: chunks ->
        encode chunk = Ok e ->
        add_text_to_chromadb text' filename name w1
        = (Raise (Py.Exc Py.DuplicateIDError (chunk_id filename 0)), w1))
  /\ (forall w c w1,
        setup_documents w = (Ok c, w1) ->
        setup_documents w1 = (Raise (Py.Exc Py.DuplicateIDError "doc1"), w1)).
Proof.
  split.
  { intros text filename name w c w' Hrun Hne.
    destruct (add_text_to_chromadb_ok _ _ _ _ _ _ Hrun Hne)
      as (cache & recs & news & _ & _ & H). eauto. }
  split; [apply chunk_id_inj|].
  split.
  { split; [intros c recs H; cbn in H; by rewrite lookup_empty in H|].
    split; [apply add_text_to_chromadb_ids_unique|].
    split; [intros; apply reset_collection_keeps; constructor|].
    split; [intros; apply process_clicked_keeps; [constructor|intros; apply collection_add_ids_unique]|].
    split; [intros; apply search_clicked_keeps, per_collection_chroma_only|].
    split; [intros; apply delete_clicked_keeps, per_collection_chroma_only|].
    apply setup_documents_ids_unique. }
  split.
  { intros text filename name w c w1 Hrun Hne.
    destruct (split_text the_splitter text) as [|chunk chunks] eqn:Es; [congruence|].
    destruct (add_text_to_chromadb_first_encoded _ _ _ _ _ _ _ _ Hrun Es) as [e He].
    eapply add_text_to_chromadb_again; eauto. by rewrite Es. }
  split; [intros; eapply add_text_to_chromadb_again; eauto|].
  apply setup_documents_again.
Qed.

(** ** The search button *)

Lemma get_answer_with_source_frame c q w :
  let w1 := (get_answer_with_source c q w).2 in
  chroma w1 = chroma w /\ fn_collections w1 = fn_collections w
  /\ session_state w1 = session_state w /\ page w1 = page w.
Proof.
  apply (get_answer_with_source_keeps
           (fun w1 => chroma w1 = chroma w /\ fn_collections w1 = fn_collections w
                      /\ session_state w1 = session_state w /\ page w1 = page w)).
  - intros p w0 H. exact H.
  - repeat split.
Qed.

Lemma search_clicked_run question now w c :
  collection (session_state w) = Some c ->
  Py.truthy (Py.strip question) = true ->
  search_clicked question now w
  = match get_answer_with_source c question w with
    | (Ok r, w1) => add_to_search_history question r.1 r.2 now (show (ShowAnswer r.1 r.2) w1)
    | (Raise e, w1) => (Ok tt, show (ErrorGeneratingAnswer (Py.msg e)) w1)
    end.
Proof.
  intros Hc Hq. unfold search_clicked. run. rewrite Hc, Hq.
  destruct (get_answer_with_source c question w) as [[r|e] w1]; reflexivity.
Qed.

(** C8. When the answer function raises, the search handler shows the
    failure ([st.error] with the text of the exception) and leaves the search
    history as it was; when it returns, and only then, the question is
    recorded with its answer and source. A failure of the generation model
    is such a raise. *)
Theorem C8_generation_error_atomicity question now w c :
  collection (session_state w) = Some c ->
  Py.truthy (Py.strip question) = true ->
  (forall e w1,
      get_answer_with_source c question w = (Raise e, w1) ->
      exists w2, search_clicked question now w = (Ok tt, w2)
        /\ search_history (session_state w2) = search_history (session_state w)
        /\ session_state w2 = session_state w
        /\ page w2 = page w ++ [ErrorGeneratingAnswer (Py.msg e)])
  /\ (forall answer source w1,
        get_answer_with_source c question w = (Ok (answer, source), w1) ->
        exists w2, search_clicked question now w = (Ok tt, w2)
          /\ search_history (session_state w2)
             = Some (take 10 (HistoryEntry question answer source now :: history_of w))
          /\ page w2 = page w ++ [ShowAnswer answer source])
  /\ (forall recs qv m e,
        chroma w !! c = Some recs ->
        default_embed question = Ok qv ->
        Py.min (distances_of qv (hits_of qv recs 3)) = Some m ->
        PrimFloat.ltb threshold m = false ->
        Forall has_metadata (hits_of qv recs 3) ->
        generation_model (prompt_of (hits_of qv recs 3) question) = Raise e ->
        get_answer_with_source c question w
        = (Raise e, log_prompt (prompt_of (hits_of qv recs 3) question) w)).
Proof.
  intros Hc Hq.
  pose proof (get_answer_with_source_frame c question w) as (_ & _ & Hs & Hp).
  rewrite (search_clicked_run question now w c Hc Hq).
  split; [|split].
  - intros e w1 Hrun. rewrite Hrun in *. cbn [snd] in Hs, Hp.
    eexists. split; [reflexivity|]. cbn. by rewrite Hs, Hp.
  - intros answer source w1 Hrun. rewrite Hrun in *. cbn [snd fst] in *.
    rewrite add_to_search_history_run. eexists. split; [reflexivity|].
    unfold history_of. cbn. by rewrite Hs, Hp.
  - intros recs qv m e Hch Hemb Hm Hgate Hmd Hgen.
    destruct (get_answer_with_source_run c question w recs qv Hch Hemb) as (_ & _ & Hnear).
    rewrite (Hnear m Hm Hgate Hmd), Hgen. reflexivity.
Qed.

(** ** The delete button *)

Lemma get_answer_with_source_chroma c q w w' :
  chroma w' = chroma w ->
  (get_answer_with_source c q w').1 = (get_answer_with_source c q w).1.
Proof.
  intros E. unfold get_answer_with_source, collection_query, call_model. run. rewrite E.
  destruct (chroma w !! c); run; [|reflexivity].
  destruct (default_embed q); run; [|reflexivity].
  destruct (insufficient _ _) as [[]|]; run; try reflexivity.
  destruct (build_context _ _); run; [|reflexivity].
  destruct (generation_model _); run; [|reflexivity].
  destruct (best_source_of _ _); reflexivity.
Qed.

Lemma collection_query_chroma c q k w w' :
  chroma w' = chroma w ->
  (collection_query c q k w').1 = (collection_query c q k w).1.
Proof.
  intros E. unfold collection_query. run. rewrite E.
  destruct (chroma w !! c); run; [|reflexivity].
  destruct (default_embed q); reflexivity.
Qed.

(** C10. The delete button of a card removes the document from the list of
    processed files and from the stored contents (and clears the preview
    flag of the card); the index, the collection of the session and the
    history are as before. Hence every query, and every answer with its
    source, is what it was before the deletion, until the collection is
    reset: after a reset a query returns no record. *)
Theorem C10_delete_keeps_chunks i w :
  exists w', delete_clicked i w = (Ok tt, w')
    /\ chroma w' = chroma w
    /\ fn_collections w' = fn_collections w
    /\ collection (session_state w') = collection (session_state w)
    /\ search_history (session_state w') = search_history (session_state w)
    /\ (forall filename,
          uploaded_files_processed (session_state w) !! i = Some filename ->
          uploaded_files_processed (session_state w')
          = delete i (uploaded_files_processed (session_state w))
          /\ document_contents (session_state w')
             = delete filename <$> document_contents (session_state w)
          /\ show_preview (session_state w') = delete i (show_preview (session_state w)))
    /\ (forall c q k, (collection_query c q k w').1 = (collection_query c q k w).1)
    /\ (forall c q, (get_answer_with_source c q w').1 = (get_answer_with_source c q w).1)
    /\ (forall c q k,
          (collection_query c q k (reset_collection c w').2).1
          = match default_embed q with Ok _ => Ok empty_results | Raise e => Raise e end).
Proof.
  assert (Hrun : exists w', delete_clicked i w = (Ok tt, w')
    /\ chroma w' = chroma w
    /\ fn_collections w' = fn_collections w
    /\ collection (session_state w') = collection (session_state w)
    /\ search_history (session_state w') = search_history (session_state w)
    /\ (forall filename,
          uploaded_files_processed (session_state w) !! i = Some filename ->
          uploaded_files_processed (session_state w')
          = delete i (uploaded_files_processed (session_state w))
          /\ document_contents (session_state w')
             = delete filename <$> document_contents (session_state w)
          /\ show_preview (session_state w') = delete i (show_preview (session_state w)))).
  { unfold delete_clicked. run.
    destruct (uploaded_files_processed (session_state w) !! i) as [filename|] eqn:Ei.
    - eexists. split; [reflexivity|]. cbn. do 4 (split; [reflexivity|]).
      intros f [= <-]. repeat split.
    - exists w. do 5 (split; [reflexivity|]). intros f [=]. }
  destruct Hrun as (w' & Hrun & Hch & Hfn & Hcol & Hh & Hdel).
  exists w'. repeat (split; [assumption|]).
  split; [intros; by apply collection_query_chroma|].
  split; [intros; by apply get_answer_with_source_chroma|].
  intros c q k. rewrite reset_collection_run. cbn [snd].
  rewrite collection_query_empty; [reflexivity|]. apply lookup_insert_eq.
Qed.

(** ** The process button *)

Lemma process_file_run b file w :
  process_file b file w
  = let name := file_name file in
    let errors := if too_short (convert_to_markdown file)
                  then processing_errors b ++ [EmptyOrCorrupted name]
                  else processing_errors b in
    let contents := <[name := stored_text file]> (b_document_contents b) in
    match add_text_to_chromadb (stored_text file) name "uploaded_documents" w with
    | (Ok c, w1) => (Ok (Batch c (processed_files b ++ [name]) contents errors), w1)
    | (Raise e, w1) =>
        (Ok (Batch (b_collection b) (processed_files b) contents
                   (errors ++ [Failed name (Py.msg e)])), w1)
    end.
Proof.
  unfold process_file, stored_text, try_except. cbn zeta. run.
  destruct (add_text_to_chromadb _ _ _ w) as [[c|e] w1]; reflexivity.
Qed.

Lemma process_file_step b file w :
  exists b1 w1 tail,
    process_file b file w = (Ok b1, w1)
    /\ w1 = (add_text_to_chromadb (stored_text file) (file_name file) "uploaded_documents" w).2
    /\ b_document_contents b1 = <[file_name file := stored_text file]> (b_document_contents b)
    /\ processing_errors b1 = processing_errors b ++ tail
    /\ (too_short (convert_to_markdown file) = true -> EmptyOrCorrupted (file_name file) ∈ tail)
    /\ (exists done, processed_files b1 = processed_files b ++ done
          /\ (file_name file ∈ done \/ exists m, Failed (file_name file) m ∈ tail)).
Proof.
  rewrite process_file_run. cbn zeta.
  destruct (add_text_to_chromadb _ _ _ w) as [[c|e] w1]; cbn [snd].
  - exists (Batch c (processed_files b ++ [file_name file])
                  (<[file_name file := stored_text file]> (b_document_contents b))
                  (if too_short (convert_to_markdown file)
                   then processing_errors b ++ [EmptyOrCorrupted (file_name file)]
                   else processing_errors b)), w1,
           (if too_short (convert_to_markdown file)
            then [EmptyOrCorrupted (file_name file)] else []).
    cbn. repeat split.
    + destruct (too_short _); [reflexivity | by rewrite app_nil_r].
    + intros ->. by left.
    + exists [file_name file]. split; [reflexivity|]. left. by left.
  - eexists _, w1,
           ((if too_short (convert_to_markdown file)
             then [EmptyOrCorrupted (file_name file)] else [])
            ++ [Failed (file_name file) (Py.msg e)]).
    split; [reflexivity|]. cbn. repeat split.
    + destruct (too_short _); [by rewrite <- app_assoc | reflexivity].
    + intros ->. by left.
    + exists []. split; [by rewrite app_nil_r|]. right. exists (Py.msg e).
      apply elem_of_app. right. by left.
Qed.

Lemma process_files_run files : forall b w,
  exists b' w',
    foldM process_file b files w = (Ok b', w')
    /\ (forall x, x ∈ processing_errors b -> x ∈ processing_errors b')
    /\ (forall n, n ∈ processed_files b -> n ∈ processed_files b')
    /\ (forall k, (forall g, g ∈ files -> file_name g <> k) ->
                  b_document_contents b' !! k = b_document_contents b !! k)
    /\ (forall k, is_Some (b_document_contents b !! k) -> is_Some (b_document_contents b' !! k))
    /\ (forall f, f ∈ files ->
          (too_short (convert_to_markdown f) = true ->
           EmptyOrCorrupted (file_name f) ∈ processing_errors b')
          /\ is_Some (b_document_contents b' !! file_name f)
          /\ (file_name f ∈ processed_files b'
              \/ exists m, Failed (file_name f) m ∈ processing_errors b')).
Proof.
  induction files as [|f files IH]; intros b w.
  - exists b, w. split; [reflexivity|].
    do 4 (split; [done|]). intros f Hf. by apply elem_of_nil in Hf.
  - destruct (process_file_step b f w)
      as (b1 & w1 & tail & Hrun & _ & Hcont & Herr & Hshort & done & Hdone & Hacc).
    destruct (IH b1 w1) as (b' & w' & Hrun' & Herrs & Hproc & Hother & Hkeys & Hfiles).
    exists b', w'. split.
    { cbn [foldM]. unfold mbind, M_bind. by rewrite Hrun. }
    split. { intros x Hx. apply Herrs. rewrite Herr. apply elem_of_app. by left. }
    split. { intros n Hn. apply Hproc. rewrite Hdone. apply elem_of_app. by left. }
    split.
    { intros k Hk. rewrite Hother by (intros g Hg; apply Hk; by right).
      rewrite Hcont. apply lookup_insert_ne. apply Hk. by left. }
    split.
    { intros k Hk. apply Hkeys. rewrite Hcont.
      destruct (decide (file_name f = k)) as [<-|Hne].
      - rewrite lookup_insert_eq. eauto.
      - by rewrite lookup_insert_ne. }
    intros g Hg. apply elem_of_cons in Hg as [->|Hg]; [|by apply Hfiles].
    split; [|split].
    + intros Hs. apply Herrs. rewrite Herr. apply elem_of_app. right. by apply Hshort.
    + apply Hkeys. rewrite Hcont, lookup_insert_eq. eauto.
    + destruct Hacc as [Hin|[m Hm]].
      * left. apply Hproc. rewrite Hdone. apply elem_of_app. by right.
      * right. exists m. apply Herrs. rewrite Herr. apply elem_of_app. by right.
Qed.

(** C9. A file whose converted text is empty, or has fewer than ten
    characters once stripped, is stored and indexed as the placeholder
    document, and the warning for the file is recorded. The loop over the
    files never raises: every file of the batch is handled, each one is in
    the stored contents and is either among the processed files or has an
    error entry of its own. *)
Theorem C9_minimum_content files b w :
  exists b' w',
    foldM process_file b files w = (Ok b', w')
    /\ (forall f, f ∈ files ->
          (too_short (convert_to_markdown f) = true ->
           EmptyOrCorrupted (file_name f) ∈ processing_errors b')
          /\ is_Some (b_document_contents b' !! file_name f)
          /\ (file_name f ∈ processed_files b'
              \/ exists m, Failed (file_name f) m ∈ processing_errors b'))
    /\ (forall pre f post,
          files = pre ++ f :: post ->
          too_short (convert_to_markdown f) = true ->
          (forall g, g ∈ post -> file_name g <> file_name f) ->
          b_document_contents b' !! file_name f = Some (placeholder (file_name f)))
    /\ (forall f b0 w0,
          too_short (convert_to_markdown f) = true ->
          exists b1,
            process_file b0 f w0
            = (Ok b1, (add_text_to_chromadb (placeholder (file_name f)) (file_name f)
                                            "uploaded_documents" w0).2)
            /\ b_document_contents b1 !! file_name f = Some (placeholder (file_name f))
            /\ EmptyOrCorrupted (file_name f) ∈ processing_errors b1).
Proof.
  destruct (process_files_run files b w) as (b' & w' & Hrun & _ & _ & _ & _ & Hfiles).
  exists b', w'. split; [exact Hrun|]. split; [exact Hfiles|]. split.
  - intros pre f post -> Hshort Hpost. clear Hfiles.
    revert b w Hrun. induction pre as [|g pre IH]; intros b w Hrun.
    + cbn [app foldM] in Hrun. unfold mbind, M_bind in Hrun.
      destruct (process_file_step b f w) as (b1 & w1 & tail & Hstep & _ & Hcont & _).
      rewrite Hstep in Hrun.
      destruct (process_files_run post b1 w1) as (b2 & w2 & Hrun2 & _ & _ & Hother & _).
      rewrite Hrun2 in Hrun. injection Hrun as <- <-.
      rewrite (Hother _ Hpost), Hcont, lookup_insert_eq.
      unfold stored_text. by rewrite Hshort.
    + cbn [app foldM] in Hrun. unfold mbind, M_bind in Hrun.
      destruct (process_file_step b g w) as (b1 & w1 & tail & Hstep & _).
      rewrite Hstep in Hrun. by apply (IH b1 w1).
  - intros f b0 w0 Hshort.
    destruct (process_file_step b0 f w0) as (b1 & w1 & tail & Hstep & Hw & Hcont & Herr & Hs & _).
    exists b1. unfold stored_text in Hw, Hcont. rewrite Hshort in Hw, Hcont.
    rewrite Hstep, Hw. split; [reflexivity|]. split.
    + by rewrite Hcont, lookup_insert_eq.
    + rewrite Herr. apply elem_of_app. right. by apply Hs.
Qed.

(** ** The records of the document app carry their filename *)

Lemma has_filename_has_metadata r : has_filename r -> has_metadata r.
Proof.
  unfold has_filename, has_metadata, filename_of.
  destruct (er_metadata r); [eauto | by intros [? ?]].
Qed.

(** From the start of the process on, whatever buttons are pressed, every
    record of the index carries a filename, so that the context of an
    answer can always be built. *)
Lemma handlers_keep_filenames :
  all_have_filename initial_world
  /\ (forall files, preserves all_have_filename (process_clicked files))
  /\ (forall q now, preserves all_have_filename (search_clicked q now))
  /\ (forall i, preserves all_have_filename (delete_clicked i)).
Proof.
  split; [intros c recs H; cbn in H; by rewrite lookup_empty in H|].
  split; [|split].
  - intros files. apply process_clicked_keeps; [constructor|].
    intros. apply collection_add_all_have_filename.
    constructor; [|constructor]. unfold has_filename, chunk_record. cbn [er_metadata].
    rewrite chunk_metadata_filename. eauto.
  - intros. apply search_clicked_keeps, per_collection_chroma_only.
  - intros. apply delete_clicked_keeps, per_collection_chroma_only.
Qed.

End App.

(** ** The size of chunks *)

Lemma len_join_empty cur : Py.len (Py.join "" cur) = total cur.
Proof.
  unfold total. induction cur as [|x cur IH]; [reflexivity|].
  destruct cur as [|y cur].
  - cbn. unfold Py.len. lia.
  - change (Py.join "" (x :: y :: cur)) with (x +:+ "" +:+ Py.join "" (y :: cur)).
    unfold Py.len in *. rewrite !length_append, IH. cbn. lia.
Qed.

Lemma total_app cur d : total (cur ++ [d]) = total cur + Py.len d.
Proof.
  unfold total. induction cur as [|x cur IH]; cbn in *; lia.
Qed.

Lemma shrink_fits size overlap cur n :
  shrink size overlap cur n = [] \/ total (shrink size overlap cur n) + n <= size.
Proof.
  induction cur as [|p cur IH]; [by left|]. cbn [shrink].
  destruct (_ || _) eqn:E; [exact IH|]. right.
  apply orb_false_iff in E as [_ E]. apply Nat.ltb_ge in E. exact E.
Qed.

Lemma split_on_empty_sep text :
  Forall (fun t => Py.len t = 1) (split_on "" text).
Proof.
  unfold split_on. change (String.rev "") with "".
  induction text as [|c text IH]; [constructor|].
  cbn [split_on_go String.prefix]. constructor; [reflexivity | exact IH].
Qed.

Lemma pieces_within size seps text :
  1 <= size -> "" ∈ seps ->
  Forall (fun p => Py.len p <= size) (pieces size seps text).
Proof.
  intros Hsize. revert text. induction seps as [|sep seps IH]; intros text Hin.
  { by apply elem_of_nil in Hin. }
  cbn [pieces]. destruct (Nat.leb_spec (Py.len text) size) as [Hle|Hgt].
  { destruct (Py.truthy text); repeat constructor. exact Hle. }
  apply Forall_flat_map, Forall_forall. intros t Ht.
  apply elem_of_cons in Hin as [<-|Hin]; [|by apply IH].
  pose proof (split_on_empty_sep text) as Hone.
  rewrite Forall_forall in Hone. specialize (Hone t Ht).
  destruct seps; cbn [pieces]; rewrite Hone;
    (destruct (Nat.leb_spec 1 size); [|lia]);
    destruct (Py.truthy t); repeat constructor; lia.
Qed.

Lemma merge_chunks size overlap (all : list string) ps : forall cur,
  (forall p, p ∈ ps -> p ∈ all) ->
  (total cur <= size \/ exists p, cur = [p] /\ p ∈ all) ->
  forall chunk, chunk ∈ merge size overlap cur ps ->
    Py.len chunk <= size \/ chunk ∈ all.
Proof.
  assert (Hemit : forall cur chunk,
             (total cur <= size \/ exists p, cur = [p] /\ p ∈ all) ->
             chunk ∈ match cur with [] => [] | _ => [Py.join "" cur] end ->
             Py.len chunk <= size \/ chunk ∈ all).
  { intros cur chunk Hinv Hc. destruct cur as [|x cur]; [by apply elem_of_nil in Hc|].
    apply list_elem_of_singleton in Hc as ->. destruct Hinv as [Ht|(p & [= -> ->] & Hp)].
    - left. by rewrite len_join_empty.
    - by right. }
  induction ps as [|d ps IH]; intros cur Hps Hinv chunk Hc; cbn [merge] in Hc.
  - by apply (Hemit cur).
  - destruct (Nat.ltb_spec size (total cur + Py.len d)) as [Hover|Hfit].
    + apply elem_of_app in Hc as [Hc|Hc]; [by apply (Hemit cur)|].
      apply (IH (shrink size overlap cur (Py.len d) ++ [d])); [| |exact Hc].
      * intros p Hp. apply Hps. by right.
      * destruct (shrink_fits size overlap cur (Py.len d)) as [->|Hs].
        -- right. exists d. split; [reflexivity|]. apply Hps. by left.
        -- left. by rewrite total_app.
    + apply (IH (cur ++ [d])); [| |exact Hc].
      * intros p Hp. apply Hps. by right.
      * left. by rewrite total_app.
Qed.

Lemma split_text_short s text :
  Py.len text <= chunk_size s -> text <> "" -> split_text s text = [text].
Proof.
  intros Hle Hne. unfold split_text.
  assert (Hp : pieces (chunk_size s) (separators s) text = [text]).
  { destruct (separators s); cbn [pieces];
      (destruct (Nat.leb_spec (Py.len text) (chunk_size s)); [|lia]);
      by destruct text. }
  rewrite Hp. cbn [merge total fmap list_fmap sum_list sum_list_with].
  destruct (Nat.ltb_spec (chunk_size s) (0 + Py.len text)); [lia|]. reflexivity.
Qed.

(** C4. Every chunk of the splitter that [add_text_to_chromadb] configures
    (size 700, overlap 100, separators paragraph break, line break, space and
    character boundary) has at most 700 characters. For any configuration, a
    chunk longer than the chunk size is a single segment of the recursive
    splitting, never several merged; with the character boundary among the
    separators and a size of at least one there is no such segment. A text
    within the chunk size is its own single chunk, and the empty text has
    none. *)
Theorem C4_chunk_size_bound :
  (forall text chunk, chunk ∈ split_text the_splitter text -> Py.len chunk <= 700)
  /\ (forall s text chunk,
        chunk ∈ split_text s text ->
        Py.len chunk <= chunk_size s
        \/ (chunk ∈ pieces (chunk_size s) (separators s) text /\ chunk_size s < Py.len chunk))
  /\ (forall s text chunk,
        1 <= chunk_size s -> "" ∈ separators s ->
        chunk ∈ split_text s text -> Py.len chunk <= chunk_size s)
  /\ (forall s text, Py.len text <= chunk_size s -> text <> "" -> split_text s text = [text])
  /\ (forall s, split_text s "" = []).
Proof.
  assert (Hgen : forall s text chunk,
             chunk ∈ split_text s text ->
             Py.len chunk <= chunk_size s
             \/ chunk ∈ pieces (chunk_size s) (separators s) text).
  { intros s text chunk Hc. unfold split_text in Hc.
    apply (merge_chunks _ _ (pieces (chunk_size s) (separators s) text) _ [] ) in Hc;
      [exact Hc | done | left; cbn; lia]. }
  assert (Hchar : forall s text chunk,
             1 <= chunk_size s -> "" ∈ separators s ->
             chunk ∈ split_text s text -> Py.len chunk <= chunk_size s).
  { intros s text chunk Hsize Hsep Hc.
    destruct (Hgen s text chunk Hc) as [H|H]; [exact H|].
    pose proof (pieces_within (chunk_size s) (separators s) text Hsize Hsep) as Hp.
    rewrite Forall_forall in Hp. by apply Hp. }
  split.
  { intros text chunk Hc. apply (Hchar the_splitter text chunk); [cbn; lia| |exact Hc].
    cbn. set_solver. }
  split.
  { intros s text chunk Hc. destruct (Hgen s text chunk Hc) as [H|H]; [by left|].
    destruct (Nat.le_gt_cases (Py.len chunk) (chunk_size s)); [by left | by right]. }
  split; [exact Hchar|].
  split; [apply split_text_short|].
  intros s. unfold split_text. by destruct (separators s).
Qed.

(** * The properties on the sample run *)

(** The gate on the sample: the question about Japan is refused with no
    prompt sent, the question about the tower goes to the model. *)
Lemma C1_sufficiency_gate_witness :
  (get_answer_with_source sample_embed sample_distance sample_model
     "uploaded_documents" "What is the capital of Japan?" eiffel_world
   = (Ok (refusal, no_source), eiffel_world)
   /\ prompts (get_answer_with_source sample_embed sample_distance sample_model
                 "uploaded_documents" "What is the capital of Japan?" eiffel_world).2
      = prompts eiffel_world
   /\ get_answer sample_embed sample_distance sample_model
        "uploaded_documents" "What is the capital of Japan?" eiffel_world
      = (Ok refusal_app, eiffel_world))
  /\ get_answer sample_embed sample_distance sample_model
       "uploaded_documents" "Where is the Eiffel Tower?" eiffel_world
     = (plain_answer_of (sample_model (plain_prompt_of [eiffel_record] "Where is the Eiffel Tower?")),
        log_prompt (plain_prompt_of [eiffel_record] "Where is the Eiffel Tower?") eiffel_world).
Proof.
  split.
  - apply (C1_sufficiency_gate sample_embed sample_distance sample_model
             "uploaded_documents" "What is the capital of Japan?" eiffel_world
             [eiffel_record] [2%float] eq_refl eq_refl).
    right. exists 2%float. split; reflexivity.
  - apply (C1_sufficiency_gate sample_embed sample_distance sample_model
             "uploaded_documents" "Where is the Eiffel Tower?" eiffel_world
             [eiffel_record] [0.5%float] eq_refl eq_refl) with (m := 0.5%float);
      reflexivity.
Defined.

(** The source of the answer about the tower is the file of the first hit. *)
Lemma C2_source_attribution_witness :
  get_answer_with_source sample_embed sample_distance sample_model
    "uploaded_documents" "Where is the Eiffel Tower?" eiffel_world
  = (Ok (Py.strip ("  Paris " +:+ nl), Py.VStr "eiffel.txt"),
     log_prompt (prompt_of (hits_of sample_distance [0.5%float] [eiffel_record] 3)
                           "Where is the Eiffel Tower?") eiffel_world).
Proof.
  apply (C2_source_attribution sample_embed sample_distance sample_model
           "uploaded_documents" "Where is the Eiffel Tower?" eiffel_world
           [eiffel_record] [0.5%float] 0.5%float
           (Some (chunk_metadata "eiffel.txt" 0 eiffel_text)) []).
  - reflexivity.
  - reflexivity.
  - reflexivity.
  - reflexivity.
  - repeat constructor. by eexists.
  - reflexivity.
  - reflexivity.
  - reflexivity.
Defined.

(** The prompt for the question about the tower is the worded one. *)
Lemma C3_prompt_construction_witness :
  prompts (get_answer_with_source sample_embed sample_distance sample_model
             "uploaded_documents" "Where is the Eiffel Tower?" eiffel_world).2
  = prompts eiffel_world
    ++ [spec_prompt [("eiffel.txt", eiffel_text)] "Where is the Eiffel Tower?"].
Proof.
  apply (C3_prompt_construction sample_embed sample_distance sample_model
           "uploaded_documents" "Where is the Eiffel Tower?" eiffel_world
           [eiffel_record] [0.5%float] 0.5%float [("eiffel.txt", eiffel_text)]);
    reflexivity.
Defined.

(** The first chunk of the long text, 140 words with their spaces. *)
Lemma C4_chunk_size_bound_witness :
  Py.len (Py.join "" (replicate 140 "word ")) <= 700.
Proof.
  apply (proj1 C4_chunk_size_bound sample_long_text).
  vm_compute. apply list_elem_of_here.
Defined.

(** Adding [eiffel.txt] a second time is refused. *)
Lemma C5_id_uniqueness_witness :
  add_text_to_chromadb sample_encode eiffel_text "eiffel.txt" "uploaded_documents"
    (add_text_to_chromadb sample_encode eiffel_text "eiffel.txt" "uploaded_documents"
       initial_world).2
  = (Raise (Py.Exc Py.DuplicateIDError (chunk_id "eiffel.txt" 0)),
     (add_text_to_chromadb sample_encode eiffel_text "eiffel.txt" "uploaded_documents"
        initial_world).2).
Proof.
  destruct (C5_id_uniqueness sample_encode sample_embed sample_distance sample_model
              sample_convert sample_documents) as (_ & _ & _ & Hagain & _).
  apply (Hagain eiffel_text "eiffel.txt" "uploaded_documents" initial_world "uploaded_documents").
  - vm_compute. reflexivity.
  - vm_compute. discriminate.
Defined.

(** Resetting the collection of the sample, present or absent. *)
Lemma C6_reset_idempotence_witness :
  reset_collection "uploaded_documents" eiffel_world
  = (Ok "uploaded_documents", set_chroma (insert "uploaded_documents" []) eiffel_world)
  /\ reset_collection "uploaded_documents" initial_world
     = (Ok "uploaded_documents", set_chroma (insert "uploaded_documents" []) initial_world)
  /\ chroma (set_chroma (insert "uploaded_documents" []) eiffel_world) !! "docs"
     = chroma eiffel_world !! "docs".
Proof.
  split; [|split].
  - apply (C6_reset_idempotence sample_embed sample_distance "uploaded_documents" eiffel_world).
  - apply (C6_reset_idempotence sample_embed sample_distance "uploaded_documents" initial_world).
  - apply (C6_reset_idempotence sample_embed sample_distance "uploaded_documents" eiffel_world).
    discriminate.
Defined.

(** The fifteen searches leave the last ten, newest first. *)
Lemma C7_history_bound_witness :
  exists w', record_searches fifteen_searches initial_world = (Ok tt, w')
    /\ search_history (session_state w') = Some (reverse (drop 5 fifteen_searches))
    /\ length (reverse (drop 5 fifteen_searches)) = 10.
Proof.
  apply (proj2 C7_history_bound fifteen_searches initial_world); reflexivity.
Defined.

(** With the failing model the error is shown and nothing is recorded. *)
Lemma C8_generation_error_atomicity_witness :
  exists w2,
    search_clicked sample_embed sample_distance failing_model
      "Where is the Eiffel Tower?" "12:00:00" eiffel_world = (Ok tt, w2)
    /\ search_history (session_state w2) = search_history (session_state eiffel_world)
    /\ session_state w2 = session_state eiffel_world
    /\ page w2 = page eiffel_world ++ [ErrorGeneratingAnswer "model failed"].
Proof.
  destruct (C8_generation_error_atomicity sample_embed sample_distance failing_model
              "Where is the Eiffel Tower?" "12:00:00" eiffel_world "uploaded_documents"
              eq_refl eq_refl) as [Hraise _].
  apply (Hraise (Py.Exc Py.GenerationError "model failed")
                (log_prompt (prompt_of [eiffel_record] "Where is the Eiffel Tower?")
                            eiffel_world)).
  vm_compute. reflexivity.
Defined.

(** The batch with the empty file: the placeholder and the warning. *)
Lemma C9_minimum_content_witness :
  exists b' w',
    foldM (process_file sample_encode sample_convert)
          (Batch "uploaded_documents" [] ∅ []) sample_batch
          (set_chroma (insert "uploaded_documents" []) initial_world)
    = (Ok b', w')
    /\ EmptyOrCorrupted "empty.txt" ∈ processing_errors b'
    /\ b_document_contents b' !! "empty.txt" = Some (placeholder "empty.txt")
    /\ is_Some (b_document_contents b' !! "eiffel.txt").
Proof.
  destruct (C9_minimum_content sample_encode sample_convert sample_batch
              (Batch "uploaded_documents" [] ∅ [])
              (set_chroma (insert "uploaded_documents" []) initial_world))
    as (b' & w' & Hrun & Hfiles & Hlast & _).
  exists b', w'. split; [exact Hrun|]. split; [|split].
  - apply (Hfiles (UploadedFile "empty.txt" 3)); [apply list_elem_of_here | reflexivity].
  - apply (Hlast [] (UploadedFile "empty.txt" 3) [UploadedFile "eiffel.txt" 54]);
      [reflexivity | reflexivity |].
    intros g Hg. apply list_elem_of_singleton in Hg. subst g. discriminate.
  - apply (Hfiles (UploadedFile "eiffel.txt" 54)).
    apply list_elem_of_further, list_elem_of_here.
Defined.

(** After the card of [eiffel.txt] is deleted its chunk still answers. *)
Lemma C10_delete_keeps_chunks_witness :
  exists w',
    delete_clicked 0 eiffel_world = (Ok tt, w')
    /\ chroma w' = chroma eiffel_world
    /\ uploaded_files_processed (session_state w') = []
    /\ document_contents (session_state w') = Some (delete "eiffel.txt" {[ "eiffel.txt" := eiffel_text ]})
    /\ (get_answer_with_source sample_embed sample_distance sample_model
          "uploaded_documents" "Where is the Eiffel Tower?" w').1
       = (get_answer_with_source sample_embed sample_distance sample_model
            "uploaded_documents" "Where is the Eiffel Tower?" eiffel_world).1.
Proof.
  destruct (C10_delete_keeps_chunks sample_embed sample_distance sample_model 0 eiffel_world)
    as (w' & Hrun & Hch & _ & _ & _ & Hdel & _ & Hans & _).
  exists w'. split; [exact Hrun|]. split; [exact Hch|].
  destruct (Hdel "eiffel.txt" eq_refl) as (Hfiles & Hdocs & _).
  split; [exact Hfiles|]. split; [exact Hdocs|]. apply Hans.
Defined.

(** * Runs of the sample *)

(** Processing the one file from the start gives [eiffel_world]. *)
Example process_eiffel :
  process_clicked sample_encode sample_convert [UploadedFile "eiffel.txt" 54] initial_world
  = (Ok tt, eiffel_world).
Proof. vm_compute. reflexivity. Qed.

(** The question about the tower is answered from the document. *)
Example answer_eiffel :
  (get_answer_with_source sample_embed sample_distance sample_model
     "uploaded_documents" "Where is the Eiffel Tower?" eiffel_world).1
  = Ok ("Paris", Py.VStr "eiffel.txt").
Proof. vm_compute. reflexivity. Qed.

Example prompt_eiffel :
  prompts (get_answer_with_source sample_embed sample_distance sample_model
             "uploaded_documents" "Where is the Eiffel Tower?" eiffel_world).2
  = ["Context information:" +:+ nl
     +:+ "Document 1 (from eiffel.txt): The Eiffel Tower is in Paris. It was completed in 1889."
     +:+ nl +:+ nl
     +:+ "Question: Where is the Eiffel Tower?" +:+ nl +:+ nl
     +:+ "Instructions: Answer ONLY using the information provided above. If the answer is not in the context, respond with "
     +:+ dquote +:+ "I don't know." +:+ dquote
     +:+ " Do not add information from outside the context." +:+ nl +:+ nl
     +:+ "Answer:"].
Proof. vm_compute. reflexivity. Qed.

(** The question about Japan is refused, and no prompt is sent. *)
Example answer_japan :
  get_answer_with_source sample_embed sample_distance sample_model
    "uploaded_documents" "What is the capital of Japan?" eiffel_world
  = (Ok ("I cannot answer this question based on the uploaded documents.",
         Py.VStr "No source"), eiffel_world).
Proof. vm_compute. reflexivity. Qed.

(** A refusal is an answer like another for the search handler: it is
    recorded in the history. *)
Example search_japan :
  search_history (session_state
    (search_clicked sample_embed sample_distance sample_model
       "What is the capital of Japan?" "12:00:00" eiffel_world).2)
  = Some [HistoryEntry "What is the capital of Japan?" refusal no_source "12:00:00"].
Proof. vm_compute. reflexivity. Qed.

(** A question of whitespace is not searched. *)
Example search_blank :
  search_clicked sample_embed sample_distance sample_model "   " "12:00:00" eiffel_world
  = (Ok tt, show EnterQuestion eiffel_world).
Proof. vm_compute. reflexivity. Qed.

(** The 999 characters give a chunk of 700 and one of 399, which opens with
    the last 100 characters of the first. *)
Example chunks_long_text :
  Py.len <$> split_text the_splitter sample_long_text = [700; 399].
Proof. vm_compute. reflexivity. Qed.

(** Without the character boundary a long word stays whole. *)
Example chunks_atomic_segment :
  split_text (RecursiveCharacterTextSplitter 5 2 [" "]) "abcdefgh ij" = ["abcdefgh "; "ij"].
Proof. vm_compute. reflexivity. Qed.

(** Two files of one name in a batch: the second is refused by the index,
    and the batch goes on. *)
Example batch_same_name :
  page (process_clicked sample_encode sample_convert
          [UploadedFile "eiffel.txt" 54; UploadedFile "eiffel.txt" 54;
           UploadedFile "big.pdf" 20000000%N] initial_world).2
  = [FileTooLarge "big.pdf"; ProcessedOk 1;
     ProcessingWarning (Failed "eiffel.txt" "eiffel.txt_chunk_0")].
Proof. vm_compute. reflexivity. Qed.

(** The batch with the empty file: both files are indexed, the first as the
    placeholder. *)
Example batch_empty_file :
  er_document <$> default [] (chroma (process_clicked sample_encode sample_convert
                                        sample_batch eiffel_world).2 !! "uploaded_documents")
  = [placeholder "empty.txt"; eiffel_text].
Proof. vm_compute. reflexivity. Qed.

Example strip_examples :
  Py.strip ("  a b " +:+ nl) = "a b" /\ Py.strip "   " = "" /\ Py.strip "" = "".
Proof. repeat split. Qed.

Example setup_documents_twice :
  (setup_documents sample_embed sample_documents
     (setup_documents sample_embed sample_documents initial_world).2).1
  = Raise (Py.Exc Py.DuplicateIDError "doc1").
Proof. vm_compute. reflexivity. Qed.
